(** * Subscription-billing backend: a shallow embedding of the Flask application

    The development follows the four source files:
    - [models.py]           the ledger tables (section "Data model"),
    - [payment_service.py]  the simulated gateway (module [PaymentService]),
    - [dunning_service.py]  the failed-payment handler (module [DunningService]),
    - [app.py]              the routes (module [App]).

    Every source of non-determinism the program consults (the system clock,
    the SMTP server, [uuid.uuid4], the [random] module) is an oracle read
    through a counter kept in the world state, so that two calls of
    [datetime.utcnow()] are two readings, as in the source. *)

From stdpp Require Import gmap strings list fin_maps pretty.
From Stdlib Require Import ZArith QArith.

Local Open Scope string_scope.
Local Open Scope list_scope.
Local Open Scope Z_scope.

(** ** Numbers and formatting

    Prices and amounts are Python floats; the program divides, multiplies and
    compares them and prints them with [:.2f].  These operations, and the
    [str()] of a [datetime], are an interface: every statement below holds
    for any implementation of it. *)

Class Number (F : Type) := {
  of_int : Z -> F;              (* int -> float conversion of [/] and [*] *)
  fdiv : F -> F -> F;           (* [a / b] *)
  fmul : F -> F -> F;           (* [a * b] *)
  fltb : F -> F -> bool;        (* [a < b] *)
  lit_0_7 : F;                  (* the literal [0.7] *)
  fmt_2f : F -> string;         (* [f"{x:.2f}"] *)
  str_datetime : Z -> string;   (* [str(d)] for a datetime [d] *)
}.

(** ** Dates

    A [datetime] is a count of microseconds; [timedelta(days=n)] is [n] days
    of microseconds and [.days] is the floor of the division by one day. *)

Definition usec_per_day : Z := 86400000000.

Definition timedelta_days (n : Z) : Z := n * usec_per_day.

Definition days (delta : Z) : Z := delta `div` usec_per_day.

(** ** Strings: the slice [s[i:]] *)

Fixpoint str_drop (n : nat) (s : string) : string :=
  match n, s with
  | O, _ => s
  | S n', String _ s' => str_drop n' s'
  | S _, EmptyString => EmptyString
  end.

Definition slice_from (i : Z) (s : string) : string :=
  let len := Z.of_nat (String.length s) in
  let start := if i <? 0 then Z.max 0 (len + i) else Z.min i len in
  str_drop (Z.to_nat start) s.

(** ** JSON values and dictionaries (insertion-ordered, as Python's) *)

Inductive JVal (F : Type) :=
  | JInt (n : Z)
  | JNum (x : F)
  | JStr (s : string).
Arguments JInt {F} n.
Arguments JNum {F} x.
Arguments JStr {F} s.

Definition Dict (F : Type) := list (string * JVal F).

Fixpoint dict_get {F} (k : string) (d : Dict F) : option (JVal F) :=
  match d with
  | [] => None
  | (k', v) :: d' => if String.eqb k k' then Some v else dict_get k d'
  end.

(** ** Data model ([models.py])

    The primary key [id] of a row is its key in the table. *)

Record Customer := mkCustomer {
  cust_email : string;
  cust_name : string;
  cust_role : string;
}.

Record PaymentMethod := mkPaymentMethod {
  pm_customer_id : Z;
  pm_card_number : string;
  pm_token : string;
}.

Record Subscription (F : Type) := mkSubscription {
  sub_customer_id : Z;
  sub_plan_name : string;
  sub_price : F;
  sub_billing_interval : string;
  sub_start_date : Z;
  sub_end_date : option Z;
  sub_status : string;
}.
Arguments mkSubscription {F}.
Arguments sub_customer_id {F}.
Arguments sub_plan_name {F}.
Arguments sub_price {F}.
Arguments sub_billing_interval {F}.
Arguments sub_start_date {F}.
Arguments sub_end_date {F}.
Arguments sub_status {F}.

Record Invoice (F : Type) := mkInvoice {
  inv_customer_id : Z;
  inv_subscription_id : Z;
  inv_amount : F;
  inv_status : string;
  inv_due_date : Z;
}.
Arguments mkInvoice {F}.
Arguments inv_customer_id {F}.
Arguments inv_subscription_id {F}.
Arguments inv_amount {F}.
Arguments inv_status {F}.
Arguments inv_due_date {F}.

Record Database (F : Type) := mkDatabase {
  customers : gmap Z Customer;
  payment_methods : gmap Z PaymentMethod;
  subscriptions : gmap Z (Subscription F);
  invoices : gmap Z (Invoice F);
}.
Arguments mkDatabase {F}.
Arguments customers {F}.
Arguments payment_methods {F}.
Arguments subscriptions {F}.
Arguments invoices {F}.

Definition empty_db {F} : Database F := mkDatabase ∅ ∅ ∅ ∅.

(** The id SQLite gives a new row of an [INTEGER PRIMARY KEY] table: one
    more than the largest id in use. *)
Definition next_id {T} (tbl : gmap Z T) : Z :=
  1 + foldr Z.max 0 (elements (dom tbl)).

(** ** The world a request runs in *)

Inductive SmtpOutcome :=
  | Delivered
  | SmtpError (e : string).

Record Email := mkEmail {
  msg_from : string;
  msg_to : string;
  msg_subject : string;
  msg_body : string;
}.

(** The oracles: the [n]-th reading of the clock, the fate of the [n]-th SMTP
    session, the [n]-th uuid, the [n]-th draw of the random generator. *)
Record Env (F : Type) := mkEnv {
  clock : nat -> Z;
  smtp : nat -> SmtpOutcome;
  uuid4 : nat -> string;
  unit_draw : nat -> F;
  int_draw : nat -> Z;
}.
Arguments mkEnv {F}.
Arguments clock {F}.
Arguments smtp {F}.
Arguments uuid4 {F}.
Arguments unit_draw {F}.
Arguments int_draw {F}.

Record World (F : Type) := mkWorld {
  committed : Database F;       (* what is in billing.db *)
  session : Database F;         (* [db.session]: committed rows and pending changes *)
  clock_reads : nat;
  smtp_sessions : nat;
  uuid_calls : nat;
  rng_calls : nat;
  stdout : list string;
  outbox : list (Email * SmtpOutcome);   (* every message handed to SMTP *)
}.
Arguments mkWorld {F}.
Arguments committed {F}.
Arguments session {F}.
Arguments clock_reads {F}.
Arguments smtp_sessions {F}.
Arguments uuid_calls {F}.
Arguments rng_calls {F}.
Arguments stdout {F}.
Arguments outbox {F}.

Definition initial_world {F} : World F :=
  mkWorld empty_db empty_db 0 0 0 0 [] [].

(** ** Exceptions and the request monad *)

Inductive Exn :=
  | NotFound                 (* [get_or_404] aborting with 404 *)
  | AttributeError
  | KeyError
  | IntegrityError.

Inductive Outcome (A : Type) :=
  | Return (a : A)
  | Raise (e : Exn).
Arguments Return {A} a.
Arguments Raise {A} e.

Definition M (F A : Type) : Type := World F -> Outcome A * World F.

Definition ret {F A} (a : A) : M F A := fun w => (Return a, w).

Definition raise {F A} (e : Exn) : M F A := fun w => (Raise e, w).

Definition bind {F A B} (m : M F A) (k : A -> M F B) : M F B :=
  fun w =>
    match m w with
    | (Return a, w') => k a w'
    | (Raise e, w') => (Raise e, w')
    end.

Notation "'let!' x := m 'in' k" := (bind m (fun x => k))
  (at level 10, x name, m at level 100, k at level 200).
Notation "'do!' m 'in' k" := (bind m (fun _ => k))
  (at level 10, m at level 100, k at level 200).

(** ** Field updates of the world *)

Section WorldUpdates.
Context {F : Type}.

Definition set_committed (d : Database F) (w : World F) : World F :=
  mkWorld d (session w) (clock_reads w) (smtp_sessions w) (uuid_calls w)
          (rng_calls w) (stdout w) (outbox w).

Definition set_session (d : Database F) (w : World F) : World F :=
  mkWorld (committed w) d (clock_reads w) (smtp_sessions w) (uuid_calls w)
          (rng_calls w) (stdout w) (outbox w).

Definition tick_clock (w : World F) : World F :=
  mkWorld (committed w) (session w) (S (clock_reads w)) (smtp_sessions w)
          (uuid_calls w) (rng_calls w) (stdout w) (outbox w).

Definition tick_uuid (w : World F) : World F :=
  mkWorld (committed w) (session w) (clock_reads w) (smtp_sessions w)
          (S (uuid_calls w)) (rng_calls w) (stdout w) (outbox w).

Definition tick_rng (w : World F) : World F :=
  mkWorld (committed w) (session w) (clock_reads w) (smtp_sessions w)
          (uuid_calls w) (S (rng_calls w)) (stdout w) (outbox w).

Definition write_stdout (line : string) (w : World F) : World F :=
  mkWorld (committed w) (session w) (clock_reads w) (smtp_sessions w)
          (uuid_calls w) (rng_calls w) (stdout w ++ [line]) (outbox w).

Definition record_smtp (msg : Email) (o : SmtpOutcome) (w : World F) : World F :=
  mkWorld (committed w) (session w) (clock_reads w) (S (smtp_sessions w))
          (uuid_calls w) (rng_calls w) (stdout w) (outbox w ++ [(msg, o)]).

Definition set_customers (t : gmap Z Customer) (d : Database F) : Database F :=
  mkDatabase t (payment_methods d) (subscriptions d) (invoices d).

Definition set_payment_methods (t : gmap Z PaymentMethod) (d : Database F) : Database F :=
  mkDatabase (customers d) t (subscriptions d) (invoices d).

Definition set_subscriptions (t : gmap Z (Subscription F)) (d : Database F) : Database F :=
  mkDatabase (customers d) (payment_methods d) t (invoices d).

Definition set_invoices (t : gmap Z (Invoice F)) (d : Database F) : Database F :=
  mkDatabase (customers d) (payment_methods d) (subscriptions d) t.
End WorldUpdates.

(** ** The primitives the program calls *)

Section Primitives.
Context {F : Type} (env : Env F).

(** [datetime.utcnow()] *)
Definition utcnow : M F Z :=
  fun w => (Return (clock env (clock_reads w)), tick_clock w).

(** [print(line)] *)
Definition print (line : string) : M F unit :=
  fun w => (Return tt, write_stdout line w).

(** [str(uuid.uuid4())] *)
Definition uuid_uuid4 : M F string :=
  fun w => (Return (uuid4 env (uuid_calls w)), tick_uuid w).

(** [random.random()] *)
Definition random_random : M F F :=
  fun w => (Return (unit_draw env (rng_calls w)), tick_rng w).

(** [random.randint(a, b)]: an integer of [a..b] *)
Definition random_randint (a b : Z) : M F Z :=
  fun w => (Return (a + int_draw env (rng_calls w) `mod` (b - a + 1)), tick_rng w).

(** [with smtplib.SMTP(...) as server: server.send_message(msg)]: the
    session either delivers the message or raises. *)
Definition smtp_send_message (msg : Email) : M F SmtpOutcome :=
  fun w => let o := smtp env (smtp_sessions w) in (Return o, record_smtp msg o w).

(** [Model.query.get_or_404(id)] *)
Definition get_or_404 {T} (table : Database F -> gmap Z T) (id : Z) : M F T :=
  fun w =>
    match table (session w) !! id with
    | Some row => (Return row, w)
    | None => (Raise NotFound, w)
    end.

(** [db.session.add(row)]: the row joins the session under the id it
    will have in its table. *)
Definition session_add {T} (table : Database F -> gmap Z T)
    (set_table : gmap Z T -> Database F -> Database F) (row : T) : M F Z :=
  fun w =>
    let id := next_id (table (session w)) in
    (Return id, set_session (set_table (<[id := row]> (table (session w))) (session w)) w).

(** An attribute assignment on a loaded row: visible in the session,
    not yet in the file. *)
Definition session_update {T} (table : Database F -> gmap Z T)
    (set_table : gmap Z T -> Database F -> Database F) (id : Z) (row : T) : M F unit :=
  fun w =>
    (Return tt, set_session (set_table (<[id := row]> (table (session w))) (session w)) w).

(** [db.session.commit()] *)
Definition commit : M F unit :=
  fun w => (Return tt, set_committed (session w) w).
End Primitives.

(** ** [payment_service.py] *)

Module PaymentService.
Section WithEnv.
Context {F : Type} `{Number F} (env : Env F).

Definition mock_payment_gateway (token : string) (amount : F) : M F (Dict F) :=
  let! r := random_random env in
  if fltb r lit_0_7 then
    let! n := random_randint env 1000 9999 in
    ret [("status", JStr "success"); ("transaction_id", JStr (pretty n))]
  else
    ret [("status", JStr "failed"); ("error", JStr "insufficient_funds")].

Definition process_payment (payment_method : PaymentMethod) (amount : F) : M F (Dict F) :=
  let! result := mock_payment_gateway (pm_token payment_method) amount in
  ret result.
End WithEnv.
End PaymentService.

(** ** [dunning_service.py] *)

Module DunningService.
Section WithEnv.
Context {F : Type} `{Number F} (env : Env F).

Definition send_email (to_email subject body : string) : M F bool :=
  do! print ("Mock sending email to " +:+ to_email +:+ ": " +:+ subject +:+ " - " +:+ body) in
  ret true.

Definition retry_body (amount : F) (retry_date : Z) : string :=
  "Payment of $" +:+ fmt_2f amount +:+ " failed. We'll retry on "
    +:+ str_datetime retry_date +:+ ". Please update your payment method.".

Definition handle_failed_payment (customer : Customer) (payment_method : PaymentMethod)
    (amount : F) : M F unit :=
  let! now := utcnow env in
  let retry_date := now + timedelta_days 2 in
  do! print ("Scheduled retry for " +:+ cust_email customer +:+ " on "
               +:+ str_datetime retry_date) in
  do! send_email (cust_email customer) "Payment Failed" (retry_body amount retry_date) in
  ret tt.
End WithEnv.
End DunningService.

(** ** [app.py] *)

Module App.

(** The JSON bodies of the POST routes. *)
Record CustomerData := mkCustomerData {
  cd_email : string;
  cd_name : option string;
  cd_role : option string;
}.

Record PaymentMethodData := mkPaymentMethodData {
  pmd_card_number : string;
}.

Record PaymentData (F : Type) := mkPaymentData {
  pd_customer_id : Z;
  pd_amount : F;
  pd_payment_method_id : Z;
}.
Arguments mkPaymentData {F}.
Arguments pd_customer_id {F}.
Arguments pd_amount {F}.
Arguments pd_payment_method_id {F}.

Record SubscriptionData (F : Type) := mkSubscriptionData {
  sd_customer_id : Z;
  sd_plan_name : string;
  sd_price : F;
  sd_billing_interval : string;
}.
Arguments mkSubscriptionData {F}.
Arguments sd_customer_id {F}.
Arguments sd_plan_name {F}.
Arguments sd_price {F}.
Arguments sd_billing_interval {F}.

(** What a route returns: [jsonify(...)] and the status code. *)
Definition Response (F : Type) : Type := Dict F * Z.

Section WithEnv.
Context {F : Type} `{Number F} (env : Env F).

Definition send_email (to_email subject body : string) : M F bool :=
  let msg := mkEmail "billing@example.com" to_email subject body in
  let! o := smtp_send_message env msg in
  match o with
  | Delivered => ret true
  | SmtpError e => do! print ("Email failed: " +:+ e) in ret false
  end.

(** [db.session.commit()] of a new customer: the [unique] constraint on
    [email] refuses a second row with the same address. *)
Definition email_taken (email : string) (t : gmap Z Customer) : bool :=
  existsb (fun kc => String.eqb (cust_email kc.2) email) (map_to_list t).

Definition create_customer (data : CustomerData) : M F (Response F) :=
  let customer := mkCustomer (cd_email data) (default "" (cd_name data))
                             (default "user" (cd_role data)) in
  let! taken := (fun w => (Return (email_taken (cd_email data) (customers (session w))), w)) in
  if (taken : bool) then raise IntegrityError else
  let! id := session_add customers set_customers customer in
  do! commit in
  ret ([("id", JInt id); ("email", JStr (cust_email customer));
        ("role", JStr (cust_role customer))], 201).

Definition add_payment_method (customer_id : Z) (data : PaymentMethodData)
    : M F (Response F) :=
  do! get_or_404 customers customer_id in
  let! token := uuid_uuid4 env in
  let payment_method :=
    mkPaymentMethod customer_id (slice_from (-4) (pmd_card_number data)) token in
  let! id := session_add payment_methods set_payment_methods payment_method in
  do! commit in
  ret ([("id", JInt id); ("card_number", JStr (pm_card_number payment_method))], 201).

(** [result['status'] == 'success'] *)
Definition is_str (v : JVal F) (s : string) : bool :=
  match v with
  | JStr s' => String.eqb s' s
  | _ => false
  end.

Definition process_payment_route (data : PaymentData F) : M F (Response F) :=
  let customer_id := pd_customer_id data in
  let amount := pd_amount data in
  let payment_method_id := pd_payment_method_id data in
  let! payment_method := get_or_404 payment_methods payment_method_id in
  let! result := PaymentService.process_payment env payment_method amount in
  match dict_get "status" result with
  | None => raise KeyError
  | Some status =>
      if is_str status "success" then ret (result, 200)
      else
        let! customer := get_or_404 customers customer_id in
        do! DunningService.handle_failed_payment env customer payment_method amount in
        ret (result, 400)
  end.

Definition invoice_body (plan_name : string) (amount : F) (due_date : Z) : string :=
  "New invoice for " +:+ plan_name +:+ ". Amount: $" +:+ fmt_2f amount
    +:+ ", Due: " +:+ str_datetime due_date.

Definition generate_invoice (customer_id : Z) (customer : Customer)
    (subscription_id : Z) (subscription : Subscription F) (amount : F)
    : M F (Z * Invoice F) :=
  let! now := utcnow env in
  let invoice := mkInvoice customer_id subscription_id amount "pending"
                           (now + timedelta_days 7) in
  let! id := session_add invoices set_invoices invoice in
  do! commit in
  do! send_email (cust_email customer) ("Invoice #" +:+ pretty id)
        (invoice_body (sub_plan_name subscription) amount (inv_due_date invoice)) in
  ret (id, invoice).

Definition create_subscription (data : SubscriptionData F) : M F (Response F) :=
  let! customer := get_or_404 customers (sd_customer_id data) in
  let! start_date := utcnow env in
  let subscription :=
    mkSubscription (sd_customer_id data) (sd_plan_name data) (sd_price data)
                   (sd_billing_interval data) start_date None "active" in
  let! id := session_add subscriptions set_subscriptions subscription in
  do! commit in
  let! invoice := generate_invoice (sd_customer_id data) customer id subscription
                                   (sd_price data) in
  ret ([("id", JInt id); ("plan_name", JStr (sub_plan_name subscription));
        ("status", JStr (sub_status subscription)); ("invoice_id", JInt invoice.1)], 201).

(** [subscription.customer]: the row the foreign key names, or [None]. *)
Definition related_customer (customer_id : Z) : M F (option Customer) :=
  fun w => (Return (customers (session w) !! customer_id), w).

Definition refund_body (prorated_amount : F) : string :=
  "Your subscription has been canceled. Prorated refund: $" +:+ fmt_2f prorated_amount.

Definition cancel_subscription (subscription_id : Z) : M F (Response F) :=
  let! subscription := get_or_404 subscriptions subscription_id in
  let subscription :=
    mkSubscription (sub_customer_id subscription) (sub_plan_name subscription)
                   (sub_price subscription) (sub_billing_interval subscription)
                   (sub_start_date subscription) (sub_end_date subscription)
                   "canceled" in
  do! session_update subscriptions set_subscriptions subscription_id subscription in
  let! now := utcnow env in
  let subscription :=
    mkSubscription (sub_customer_id subscription) (sub_plan_name subscription)
                   (sub_price subscription) (sub_billing_interval subscription)
                   (sub_start_date subscription) (Some now)
                   (sub_status subscription) in
  do! session_update subscriptions set_subscriptions subscription_id subscription in
  let! now' := utcnow env in
  let days_remaining := 30 - days (now' - sub_start_date subscription) in
  do! (if 0 <? days_remaining then
         let prorated_amount :=
           fmul (fdiv (of_int days_remaining) (of_int 30)) (sub_price subscription) in
         let! customer := related_customer (sub_customer_id subscription) in
         match customer with
         | None => raise AttributeError
         | Some customer =>
             do! send_email (cust_email customer) "Subscription Canceled"
                   (refund_body prorated_amount) in
             ret tt
         end
       else ret tt) in
  do! commit in
  ret ([("id", JInt subscription_id); ("status", JStr (sub_status subscription))], 200).

(** One request: Flask turns an exception into an error status (404 for
    [get_or_404], 500 otherwise) and the session is discarded when the
    request ends, dropping whatever was not committed. *)
Definition status_of_exn (e : Exn) : Z :=
  match e with
  | NotFound => 404
  | _ => 500
  end.

Definition handle_request (route : M F (Response F)) (w : World F)
    : (option (Dict F) * Z) * World F :=
  match route w with
  | (Return (body, code), w') => ((Some body, code), set_session (committed w') w')
  | (Raise e, w') => ((None, status_of_exn e), set_session (committed w') w')
  end.

(** The routes that write; the GET routes and the HTML pages only read. *)
Inductive Request :=
  | PostCustomer (data : CustomerData)
  | PostPaymentMethod (customer_id : Z) (data : PaymentMethodData)
  | PostPayment (data : PaymentData F)
  | PostSubscription (data : SubscriptionData F)
  | PostCancel (subscription_id : Z).

Definition route_of (r : Request) : M F (Response F) :=
  match r with
  | PostCustomer data => create_customer data
  | PostPaymentMethod customer_id data => add_payment_method customer_id data
  | PostPayment data => process_payment_route data
  | PostSubscription data => create_subscription data
  | PostCancel subscription_id => cancel_subscription subscription_id
  end.

Definition serve (r : Request) (w : World F) : World F :=
  (handle_request (route_of r) w).2.

(** The worlds the application can be in: it starts on an empty database
    and serves requests one after the other. *)
Inductive reachable : World F -> Prop :=
  | reachable_initial : reachable initial_world
  | reachable_serve r w : reachable w -> reachable (serve r w).
End WithEnv.

(** The routes that read.  [jsonify] prints a [datetime] with Flask's
    [http_date], taken here as a parameter. *)
Section Reads.
Context {F : Type} (http_date : Z -> string).

Definition get_customer (customer_id : Z) : M F (Response F) :=
  let! customer := get_or_404 customers customer_id in
  ret ([("id", JInt customer_id); ("email", JStr (cust_email customer));
        ("name", JStr (cust_name customer)); ("role", JStr (cust_role customer))], 200).

Definition get_invoice (invoice_id : Z) : M F (Response F) :=
  let! invoice := get_or_404 invoices invoice_id in
  ret ([("id", JInt invoice_id); ("customer_id", JInt (inv_customer_id invoice));
        ("amount", JNum (inv_amount invoice)); ("status", JStr (inv_status invoice));
        ("due_date", JStr (http_date (inv_due_date invoice)))], 200).

(** What an HTML route returns: a refusal, or a template and the rows it
    is rendered with. *)
Inductive Page :=
  | AccessDenied                                   (* ["Access denied", 403] *)
  | Dashboard (customers : list (Z * Customer)) (invoices : list (Z * Invoice F))
  | InvoicePage (invoice_id : Z) (invoice : Invoice F).

(** [Model.query.all()]: the rows of a table. *)
Definition query_all {T} (table : Database F -> gmap Z T) : M F (list (Z * T)) :=
  fun w => (Return (map_to_list (table (session w))), w).

(** [role] is [request.args.get('role')]. *)
Definition dashboard (role : option string) : M F Page :=
  if negb (match role with
           | Some r => String.eqb r "admin"
           | None => false
           end)
  then ret AccessDenied
  else
    let! customers := query_all customers in
    let! invoices := query_all invoices in
    ret (Dashboard customers invoices).

Definition view_invoice (invoice_id : Z) : M F Page :=
  let! invoice := get_or_404 invoices invoice_id in
  ret (InvoicePage invoice_id invoice).
End Reads.
End App.

(** ** A runnable instance

    Exact rationals stand in for floats, and scripted oracles for the
    clock, the SMTP server, the uuid generator and the random generator, so
    that the model can be evaluated on concrete requests. *)

Module Scripted.

Definition cents (q : Q) : Z :=
  (2 * 100 * Qnum q + Zpos (Qden q)) `div` (2 * Zpos (Qden q)).

Definition two_digits (n : Z) : string :=
  if n <? 10 then "0" +:+ pretty n else pretty n.

Definition two_decimals (q : Q) : string :=
  let c := cents q in
  (if c <? 0 then "-" else "") +:+ pretty (Z.abs c `div` 100) +:+ "."
    +:+ two_digits (Z.abs c `mod` 100).

#[export] Instance rational : Number Q := {|
  of_int := inject_Z;
  fdiv a b := Qred (a / b);
  fmul a b := Qred (a * b);
  fltb a b := negb (Qle_bool b a);
  lit_0_7 := 7 # 10;
  fmt_2f := two_decimals;
  str_datetime t := "t" +:+ pretty t;
|}.

(** Readings of the clock, in microseconds. *)
Definition clock_of (readings : list Z) (n : nat) : Z :=
  default 0 (readings !! n).

Definition smtp_of (outcomes : list SmtpOutcome) (n : nat) : SmtpOutcome :=
  default Delivered (outcomes !! n).

Definition env_of (readings : list Z) (outcomes : list SmtpOutcome)
    (draws : list Q) : Env Q :=
  mkEnv (clock_of readings) (smtp_of outcomes) (fun n => "uuid-" +:+ pretty n)
        (fun n => default 0%Q (draws !! n)) (fun n => Z.of_nat n).

(** A scripted history.  The clock is read at 1000 and 1005 microseconds,
    then ten days and twelve days later; the second SMTP session is
    refused; the first draw of the random generator is 0.9. *)
Definition env0 : Env Q :=
  env_of [1000; 1005; 864000001000; 864000001003; 1036800001000; 1036800001004]
         [Delivered; SmtpError "Connection refused"; Delivered]
         [(9 # 10)%Q; (1 # 2)%Q].

Definition alice : App.CustomerData :=
  App.mkCustomerData "a@b.com" (Some "Alice") None.

Definition alice_row : Customer := mkCustomer "a@b.com" "Alice" "user".

Definition visa : App.PaymentMethodData :=
  App.mkPaymentMethodData "4111111111111111".

Definition visa_row : PaymentMethod := mkPaymentMethod 1 "1111" "uuid-0".

Definition pro_plan : App.SubscriptionData Q :=
  App.mkSubscriptionData 1 "Pro" (2999 # 100)%Q "monthly".

Definition pro_row : Subscription Q :=
  mkSubscription 1 "Pro" (2999 # 100)%Q "monthly" 1000 None "active".

(** Alice registers, adds a card, subscribes, cancels. *)
Definition w_alice : World Q := App.serve env0 (App.PostCustomer alice) initial_world.

Definition w_card : World Q := App.serve env0 (App.PostPaymentMethod 1 visa) w_alice.

Definition w_sub : World Q := App.serve env0 (App.PostSubscription pro_plan) w_card.

Definition w_canceled : World Q := App.serve env0 (App.PostCancel 1) w_sub.

(** A payment attempt after the card is added (declined: the draw is 0.9). *)
Definition w_declined : World Q :=
  App.serve env0 (App.PostPayment (App.mkPaymentData 1 (10 # 1)%Q 1)) w_card.

Definition mastercard : App.PaymentMethodData :=
  App.mkPaymentMethodData "5500000000000004".

(** An SMTP server that is down. *)
Definition smtp_down (n : nat) : SmtpOutcome := SmtpError "Connection refused".

(** A second customer, and Alice's second card. *)
Definition bob : App.CustomerData := App.mkCustomerData "bob@b.com" None None.

Definition bob_row : Customer := mkCustomer "bob@b.com" "" "user".

Definition w_bob : World Q := App.serve env0 (App.PostCustomer bob) w_canceled.

Definition w_two_cards : World Q :=
  App.serve env0 (App.PostPaymentMethod 1 mastercard) w_card.

(** A clock that advances by one hour at every reading. *)
Definition steady_env : Env Q :=
  mkEnv (fun n => 1000 + Z.of_nat n * 3600000000) (smtp_of []) (fun n => "uuid-" +:+ pretty n)
        (fun n => 0%Q) (fun n => Z.of_nat n).

Definition w_steady : World Q :=
  App.serve steady_env (App.PostCancel 1)
    (App.serve steady_env (App.PostSubscription pro_plan)
       (App.serve steady_env (App.PostCustomer alice) initial_world)).

(** A clock whose third and fourth readings fall one microsecond before
    and exactly on the thirtieth day after the first. *)
Definition straddle_env : Env Q :=
  env_of [1000; 1005; 2592000000999; 2592000001000] [] [].

Definition w_straddle : World Q :=
  App.serve straddle_env (App.PostSubscription pro_plan)
    (App.serve straddle_env (App.PostCustomer alice) initial_world).

(** A stand-in for Flask's [http_date]. *)
Definition http_date (t : Z) : string := "date " +:+ pretty t.

End Scripted.

(** ** Well-formed worlds *)

(** Between two requests the session holds nothing uncommitted. *)
Definition quiescent {F} (w : World F) : Prop := session w = committed w.

(** [db.ForeignKey('customer.id')] on [Subscription.customer_id]. *)
Definition foreign_keys {F} (d : Database F) : Prop :=
  forall id s, subscriptions d !! id = Some s ->
    is_Some (customers d !! sub_customer_id s).

(** The invariant the data model states for a subscription. *)
Definition end_date_iff_canceled {F} (s : Subscription F) : Prop :=
  is_Some (sub_end_date s) <-> sub_status s = "canceled".

(** Every stored token is one of the uuids drawn so far. *)
Definition tokens_drawn {F} (env : Env F) (w : World F) : Prop :=
  forall id pm, payment_methods (committed w) !! id = Some pm ->
    exists n, (n < uuid_calls w)%nat /\ pm_token pm = uuid4 env n.

Record invariant {F} (env : Env F) (w : World F) : Prop := mkInvariant {
  inv_quiescent : quiescent w;
  inv_foreign_keys : foreign_keys (committed w);
  inv_end_date : forall id s,
    subscriptions (committed w) !! id = Some s -> end_date_iff_canceled s;
  inv_tokens : tokens_drawn env w;
}.

(** The row [cancel_subscription] leaves in the table. *)
Definition canceled_at {F} (now : Z) (s : Subscription F) : Subscription F :=
  mkSubscription (sub_customer_id s) (sub_plan_name s) (sub_price s)
                 (sub_billing_interval s) (sub_start_date s) (Some now) "canceled".

(** [days_remaining] as [cancel_subscription] computes it at the reading [now]. *)
Definition days_remaining {F} (now : Z) (s : Subscription F) : Z :=
  30 - days (now - sub_start_date s).

(** [prorated_amount] for a positive [days_remaining]. *)
Definition prorated_amount {F} `{Number F} (remaining : Z) (s : Subscription F) : F :=
  fmul (fdiv (of_int remaining) (of_int 30)) (sub_price s).

Definition refund_email {F} `{Number F} (c : Customer) (remaining : Z)
    (s : Subscription F) : Email :=
  mkEmail "billing@example.com" (cust_email c) "Subscription Canceled"
          (App.refund_body (prorated_amount remaining s)).

(** The same environment with another SMTP server. *)
Definition with_smtp {F} (transport : nat -> SmtpOutcome) (env : Env F) : Env F :=
  mkEnv (clock env) transport (uuid4 env) (unit_draw env) (int_draw env).

(** The two lines [handle_failed_payment] prints. *)
Definition scheduled_line {F} `{Number F} (customer : Customer) (retry_date : Z) : string :=
  "Scheduled retry for " +:+ cust_email customer +:+ " on " +:+ str_datetime retry_date.

Definition mock_line (to_email subject body : string) : string :=
  "Mock sending email to " +:+ to_email +:+ ": " +:+ subject +:+ " - " +:+ body.

(** The two dictionaries the gateway returns. *)
Definition success_result {F} (transaction_id : string) : Dict F :=
  [("status", JStr "success"); ("transaction_id", JStr transaction_id)].

Definition failed_result {F} : Dict F :=
  [("status", JStr "failed"); ("error", JStr "insufficient_funds")].

(** ** The ledger as a whole *)

(** Requests served one after the other. *)
Definition serve_all {F} `{Number F} (env : Env F) (requests : list (App.Request (F:=F)))
    (w : World F) : World F :=
  foldl (fun w r => App.serve env r w) w requests.

(** [unique=True] on [Customer.email]. *)
Definition emails_unique {F} (d : Database F) : Prop :=
  forall id1 id2 c1 c2,
    customers d !! id1 = Some c1 -> customers d !! id2 = Some c2 ->
    cust_email c1 = cust_email c2 -> id1 = id2.

(** An invoice is pending, belongs to a stored subscription of the same
    customer, carries its price, and is due 7 days after the clock reading
    that follows the one its subscription started at. *)
Definition invoice_consistent {F} (env : Env F) (d : Database F) (i : Invoice F) : Prop :=
  inv_status i = "pending" /\
  exists s n,
    subscriptions d !! inv_subscription_id i = Some s /\
    sub_customer_id s = inv_customer_id i /\
    sub_price s = inv_amount i /\
    sub_start_date s = clock env n /\
    inv_due_date i = clock env (S n) + timedelta_days 7.

(** Every subscription has an invoice, and no two invoices share one. *)
Definition one_invoice_each {F} (d : Database F) : Prop :=
  (forall sid s, subscriptions d !! sid = Some s ->
     exists iid i, invoices d !! iid = Some i /\ inv_subscription_id i = sid) /\
  (forall iid1 iid2 i1 i2,
     invoices d !! iid1 = Some i1 -> invoices d !! iid2 = Some i2 ->
     inv_subscription_id i1 = inv_subscription_id i2 -> iid1 = iid2).

(** A subscription started at one of the clock readings taken so far, and
    ended, if it did, at a later one. *)
Definition subscription_times {F} (env : Env F) (w : World F) (s : Subscription F) : Prop :=
  exists n, (n < clock_reads w)%nat /\ sub_start_date s = clock env n /\
    forall e, sub_end_date s = Some e ->
      exists m, (n < m < clock_reads w)%nat /\ e = clock env m.

(** A stored payment method belongs to a stored customer and keeps at most
    four characters of the card number ([db.String(4)]). *)
Definition payment_method_ok {F} (d : Database F) (pm : PaymentMethod) : Prop :=
  is_Some (customers d !! pm_customer_id pm) /\
  (String.length (pm_card_number pm) <= 4)%nat.

(** Two stored payment methods carry two different draws of [uuid4]. *)
Definition tokens_from_distinct_draws {F} (env : Env F) (w : World F) : Prop :=
  forall id1 id2 pm1 pm2,
    payment_methods (committed w) !! id1 = Some pm1 ->
    payment_methods (committed w) !! id2 = Some pm2 ->
    id1 <> id2 ->
    exists n1 n2, n1 <> n2 /\ pm_token pm1 = uuid4 env n1 /\ pm_token pm2 = uuid4 env n2.

Record ledger_consistent {F} (env : Env F) (w : World F) : Prop := mkLedgerConsistent {
  lc_emails : emails_unique (committed w);
  lc_invoices : forall iid i,
    invoices (committed w) !! iid = Some i -> invoice_consistent env (committed w) i;
  lc_one_invoice : one_invoice_each (committed w);
  lc_times : forall sid s,
    subscriptions (committed w) !! sid = Some s -> subscription_times env w s;
  lc_status : forall sid s,
    subscriptions (committed w) !! sid = Some s ->
    sub_status s = "active" \/ sub_status s = "canceled";
  lc_payment_methods : forall id pm,
    payment_methods (committed w) !! id = Some pm -> payment_method_ok (committed w) pm;
  lc_tokens : tokens_from_distinct_draws env w;
}.

(** What a request does to the ledger: nothing, or one of four writes. *)
Inductive ledger_step {F} (env : Env F) (w w' : World F) : Prop :=
  | step_unchanged :
      committed w' = committed w ->
      (clock_reads w <= clock_reads w')%nat ->
      uuid_calls w' = uuid_calls w ->
      ledger_step env w w'
  | step_customer (c : Customer) :
      (forall id c0, customers (committed w) !! id = Some c0 ->
         cust_email c0 <> cust_email c) ->
      committed w'
        = set_customers (<[next_id (customers (committed w)) := c]>
                           (customers (committed w))) (committed w) ->
      clock_reads w' = clock_reads w ->
      uuid_calls w' = uuid_calls w ->
      ledger_step env w w'
  | step_payment_method (customer_id : Z) (card_number : string) :
      is_Some (customers (committed w) !! customer_id) ->
      committed w'
        = set_payment_methods
            (<[next_id (payment_methods (committed w)) :=
                 mkPaymentMethod customer_id (slice_from (-4) card_number)
                                 (uuid4 env (uuid_calls w))]>
               (payment_methods (committed w))) (committed w) ->
      clock_reads w' = clock_reads w ->
      uuid_calls w' = S (uuid_calls w) ->
      ledger_step env w w'
  | step_subscription (customer_id : Z) (plan_name : string) (price : F)
      (billing_interval : string) :
      is_Some (customers (committed w) !! customer_id) ->
      committed w'
        = set_invoices
            (<[next_id (invoices (committed w)) :=
                 mkInvoice customer_id (next_id (subscriptions (committed w))) price
                           "pending"
                           (clock env (S (clock_reads w)) + timedelta_days 7)]>
               (invoices (committed w)))
            (set_subscriptions
               (<[next_id (subscriptions (committed w)) :=
                    mkSubscription customer_id plan_name price billing_interval
                                   (clock env (clock_reads w)) None "active"]>
                  (subscriptions (committed w))) (committed w)) ->
      clock_reads w' = S (S (clock_reads w)) ->
      uuid_calls w' = uuid_calls w ->
      ledger_step env w w'
  | step_cancel (subscription_id : Z) (s : Subscription F) :
      subscriptions (committed w) !! subscription_id = Some s ->
      committed w'
        = set_subscriptions
            (<[subscription_id := canceled_at (clock env (clock_reads w)) s]>
               (subscriptions (committed w))) (committed w) ->
      clock_reads w' = S (S (clock_reads w)) ->
      uuid_calls w' = uuid_calls w ->
      ledger_step env w w'.

(** The row the route looks up first is not in the ledger: the customer
    for a new payment method or subscription, the payment method for a
    payment, the subscription for a cancellation. *)
Definition names_absent {F} (r : App.Request (F:=F)) (d : Database F) : Prop :=
  match r with
  | App.PostCustomer _ => False
  | App.PostPaymentMethod customer_id _ => customers d !! customer_id = None
  | App.PostPayment data => payment_methods d !! App.pd_payment_method_id data = None
  | App.PostSubscription data => customers d !! App.sd_customer_id data = None
  | App.PostCancel subscription_id => subscriptions d !! subscription_id = None
  end.

(** The fields of a subscription no route assigns after creation. *)
Definition same_terms {F} (s s' : Subscription F) : Prop :=
  sub_customer_id s' = sub_customer_id s /\ sub_plan_name s' = sub_plan_name s /\
  sub_price s' = sub_price s /\ sub_billing_interval s' = sub_billing_interval s /\
  sub_start_date s' = sub_start_date s.

(** The rows of [w] that [w'] still has. *)
Definition kept {F} (w w' : World F) : Prop :=
  (forall id c, customers (committed w) !! id = Some c ->
                customers (committed w') !! id = Some c) /\
  (forall id pm, payment_methods (committed w) !! id = Some pm ->
                 payment_methods (committed w') !! id = Some pm) /\
  (forall id i, invoices (committed w) !! id = Some i ->
                invoices (committed w') !! id = Some i) /\
  (forall id s, subscriptions (committed w) !! id = Some s ->
     exists s', subscriptions (committed w') !! id = Some s' /\ same_terms s s' /\
                (sub_status s = "canceled" -> sub_status s' = "canceled")).

(** The clock never runs backwards. *)
Definition monotone_clock {F} (env : Env F) : Prop :=
  forall n m, (n <= m)%nat -> clock env n <= clock env m.

(** * Properties *)

Ltac unfold_routes :=
  unfold App.serve, App.handle_request, App.route_of,
    App.create_customer, App.add_payment_method, App.process_payment_route,
    App.create_subscription, App.generate_invoice, App.cancel_subscription,
    App.send_email, App.related_customer,
    PaymentService.process_payment, PaymentService.mock_payment_gateway,
    DunningService.handle_failed_payment, DunningService.send_email,
    bind, ret, raise, get_or_404, session_add, session_update, commit,
    utcnow, print, uuid_uuid4, random_random, random_randint, smtp_send_message.

(** Closes a goal between closed terms by evaluating both sides. *)
Ltac evaluate := vm_compute; reflexivity.

(** Opens a world known to be quiescent into its fields. *)
Ltac open_world w Hq :=
  let ss := fresh "ss" in
  destruct w as [?cm ss ?reads ?sessions ?uuids ?draws ?out ?sent];
  unfold quiescent in Hq; simpl in Hq; subst ss; simpl in *.

(** ** Fresh ids *)

Lemma foldr_max_bound (l : list Z) (x : Z) : x ∈ l -> x <= foldr Z.max 0 l.
Proof.
  induction l as [|y l IH]; intros Hx.
  - inversion Hx.
  - apply elem_of_cons in Hx as [->|Hx]; simpl; [lia|].
    specialize (IH Hx). lia.
Qed.

Lemma next_id_fresh {T} (tbl : gmap Z T) : tbl !! next_id tbl = None.
Proof.
  apply not_elem_of_dom. intros Hin.
  apply elem_of_elements, foldr_max_bound in Hin.
  unfold next_id in Hin. lia.
Qed.

(** ** The slice [s[-4:]] *)

Lemma str_drop_length (n : nat) (s : string) :
  String.length (str_drop n s) = (String.length s - n)%nat.
Proof.
  revert s. induction n as [|n IH]; intros s; simpl.
  - lia.
  - destruct s as [|a s]; simpl; [reflexivity | apply IH].
Qed.

Lemma str_drop_suffix (n : nat) (s : string) :
  exists prefix, s = prefix +:+ str_drop n s.
Proof.
  revert s. induction n as [|n IH]; intros s; simpl.
  - exists "". reflexivity.
  - destruct s as [|a s].
    + exists "". reflexivity.
    + destruct (IH s) as [p Hp]. exists (String a p).
      change (String a s = String a (p +:+ str_drop n s)). f_equal. exact Hp.
Qed.

Lemma last4_length (s : string) :
  String.length (slice_from (-4) s) = Nat.min 4 (String.length s).
Proof.
  unfold slice_from. change (-4 <? 0) with true. cbv iota zeta.
  rewrite str_drop_length. lia.
Qed.

Lemma last4_suffix (s : string) : exists prefix, s = prefix +:+ slice_from (-4) s.
Proof. unfold slice_from. apply str_drop_suffix. Qed.

Lemma last4_short (s : string) :
  (String.length s <= 4)%nat -> slice_from (-4) s = s.
Proof.
  intros Hs. unfold slice_from. change (-4 <? 0) with true. cbv iota zeta.
  replace (Z.to_nat _) with O by lia. reflexivity.
Qed.

Lemma last4_long (s : string) :
  (4 < String.length s)%nat -> slice_from (-4) s <> s.
Proof.
  intros Hs Heq. pose proof (last4_length s) as Hl. rewrite Heq in Hl. lia.
Qed.

Section Properties.
Context {F : Type} `{Number F} (env : Env F).

(** ** What each route leaves in the database *)

Lemma cancel_subscription_run (w : World F) (sid : Z) (s : Subscription F) (c : Customer) :
  quiescent w ->
  subscriptions (committed w) !! sid = Some s ->
  customers (committed w) !! sub_customer_id s = Some c ->
  let now := clock env (clock_reads w) in
  let remaining := days_remaining (clock env (S (clock_reads w))) s in
  let db' := set_subscriptions (<[sid := canceled_at now s]> (subscriptions (committed w)))
                               (committed w) in
  let w' := (App.cancel_subscription env sid w).2 in
  (App.cancel_subscription env sid w).1
    = Return ([("id", JInt sid); ("status", JStr "canceled")], 200) /\
  committed w' = db' /\
  session w' = db' /\
  clock_reads w' = S (S (clock_reads w)) /\
  uuid_calls w' = uuid_calls w /\
  outbox w' = outbox w ++
    (if 0 <? remaining then [(refund_email c remaining s, smtp env (smtp_sessions w))]
     else []).
Proof.
  intros Hq Hs Hc. open_world w Hq.
  unfold_routes. simpl. rewrite Hs. simpl.
  rewrite insert_insert_eq.
  unfold days_remaining, canceled_at.
  destruct (0 <? _) eqn:Hpos; simpl.
  - rewrite Hc. simpl. destruct (smtp env sessions); simpl; repeat split.
  - repeat split. symmetry. apply app_nil_r.
Qed.

Lemma cancel_subscription_absent (w : World F) (sid : Z) :
  subscriptions (session w) !! sid = None ->
  App.cancel_subscription env sid w = (Raise NotFound, w).
Proof. intros Hs. unfold_routes. rewrite Hs. reflexivity. Qed.

Lemma create_subscription_run (w : World F) (data : App.SubscriptionData F) (c : Customer) :
  quiescent w ->
  customers (committed w) !! App.sd_customer_id data = Some c ->
  let sid := next_id (subscriptions (committed w)) in
  let iid := next_id (invoices (committed w)) in
  let subscription :=
    mkSubscription (App.sd_customer_id data) (App.sd_plan_name data) (App.sd_price data)
      (App.sd_billing_interval data) (clock env (clock_reads w)) None "active" in
  let invoice :=
    mkInvoice (App.sd_customer_id data) sid (App.sd_price data) "pending"
      (clock env (S (clock_reads w)) + timedelta_days 7) in
  let db' :=
    set_invoices (<[iid := invoice]> (invoices (committed w)))
      (set_subscriptions (<[sid := subscription]> (subscriptions (committed w)))
         (committed w)) in
  let w' := (App.create_subscription env data w).2 in
  (App.create_subscription env data w).1
    = Return ([("id", JInt sid); ("plan_name", JStr (App.sd_plan_name data));
               ("status", JStr "active"); ("invoice_id", JInt iid)], 201) /\
  committed w' = db' /\
  session w' = db' /\
  uuid_calls w' = uuid_calls w /\
  outbox w' = outbox w ++
    [(mkEmail "billing@example.com" (cust_email c) ("Invoice #" +:+ pretty iid)
        (App.invoice_body (App.sd_plan_name data) (App.sd_price data)
           (inv_due_date invoice)),
      smtp env (smtp_sessions w))].
Proof.
  intros Hq Hc. open_world w Hq.
  unfold_routes. simpl. rewrite Hc. simpl.
  destruct (smtp env sessions); simpl; repeat split.
Qed.

Lemma create_subscription_absent (w : World F) (data : App.SubscriptionData F) :
  customers (session w) !! App.sd_customer_id data = None ->
  App.create_subscription env data w = (Raise NotFound, w).
Proof. intros Hc. unfold_routes. rewrite Hc. reflexivity. Qed.

Lemma add_payment_method_run (w : World F) (cid : Z) (data : App.PaymentMethodData)
    (c : Customer) :
  quiescent w ->
  customers (committed w) !! cid = Some c ->
  let pid := next_id (payment_methods (committed w)) in
  let pm := mkPaymentMethod cid (slice_from (-4) (App.pmd_card_number data))
                            (uuid4 env (uuid_calls w)) in
  let db' := set_payment_methods (<[pid := pm]> (payment_methods (committed w)))
                                 (committed w) in
  let w' := (App.add_payment_method env cid data w).2 in
  (App.add_payment_method env cid data w).1
    = Return ([("id", JInt pid); ("card_number", JStr (pm_card_number pm))], 201) /\
  committed w' = db' /\
  session w' = db' /\
  uuid_calls w' = S (uuid_calls w).
Proof.
  intros Hq Hc. open_world w Hq.
  unfold_routes. simpl. rewrite Hc. simpl. repeat split.
Qed.

Lemma add_payment_method_absent (w : World F) (cid : Z) (data : App.PaymentMethodData) :
  customers (session w) !! cid = None ->
  App.add_payment_method env cid data w = (Raise NotFound, w).
Proof. intros Hc. unfold_routes. rewrite Hc. reflexivity. Qed.

Lemma create_customer_run (w : World F) (data : App.CustomerData) :
  quiescent w ->
  let w' := (App.create_customer data w).2 in
  uuid_calls w' = uuid_calls w /\
  payment_methods (committed w') = payment_methods (committed w) /\
  subscriptions (committed w') = subscriptions (committed w) /\
  (customers (committed w') = customers (committed w) \/
   exists c, customers (committed w')
             = <[next_id (customers (committed w)) := c]> (customers (committed w))).
Proof.
  intros Hq. open_world w Hq.
  unfold_routes. simpl. destruct (App.email_taken _ _); simpl; repeat split; eauto.
Qed.

Lemma process_payment_route_frame (w : World F) (data : App.PaymentData F) :
  let w' := (App.process_payment_route env data w).2 in
  committed w' = committed w /\ session w' = session w /\ uuid_calls w' = uuid_calls w.
Proof.
  destruct w as [cm ss reads sessions uuids draws out sent].
  unfold_routes. simpl.
  destruct (payment_methods ss !! _); simpl; [|repeat split].
  destruct (fltb _ _); simpl; [repeat split|].
  destruct (customers ss !! _); simpl; repeat split.
Qed.

Lemma committed_serve (r : App.Request) (w : World F) :
  committed (App.serve env r w) = committed (App.route_of env r w).2
  /\ session (App.serve env r w) = committed (App.route_of env r w).2
  /\ uuid_calls (App.serve env r w) = uuid_calls (App.route_of env r w).2
  /\ outbox (App.serve env r w) = outbox (App.route_of env r w).2
  /\ clock_reads (App.serve env r w) = clock_reads (App.route_of env r w).2
  /\ smtp_sessions (App.serve env r w) = smtp_sessions (App.route_of env r w).2.
Proof.
  unfold App.serve, App.handle_request.
  destruct (App.route_of env r w) as [[[body code]|e] w']; simpl; repeat split.
Qed.

(** ** The invariant of the reachable worlds *)

Lemma initial_invariant : invariant env initial_world.
Proof.
  split.
  - reflexivity.
  - intros id s Hs. simpl in Hs. rewrite lookup_empty in Hs. discriminate.
  - intros id s Hs. simpl in Hs. rewrite lookup_empty in Hs. discriminate.
  - intros id pm Hpm. simpl in Hpm. rewrite lookup_empty in Hpm. discriminate.
Qed.

Lemma tokens_drawn_frame (w w' : World F) :
  payment_methods (committed w') = payment_methods (committed w) ->
  uuid_calls w' = uuid_calls w ->
  tokens_drawn env w -> tokens_drawn env w'.
Proof.
  intros Hpm Hu Ht id pm Hl. rewrite Hpm in Hl. rewrite Hu. eauto.
Qed.

Lemma serve_invariant (r : App.Request) (w : World F) :
  invariant env w -> invariant env (App.serve env r w).
Proof.
  intros [Hq Hfk Hend Htok].
  destruct (committed_serve r w) as (Hcm & Hss & Hu & _).
  assert (Hq' : quiescent (App.serve env r w)) by (unfold quiescent; congruence).
  destruct r as [data|cid data|data|data|sid]; simpl in Hcm, Hss, Hu.
  - (* create_customer *)
    destruct (create_customer_run w data Hq) as (Hu' & Hpm & Hsub & Hcust).
    split; [exact Hq'| | |].
    + intros id s Hs. rewrite Hcm, Hsub in Hs. rewrite Hcm.
      destruct (Hfk id s Hs) as [c Hc].
      destruct Hcust as [-> | [c' ->]]; [eauto|].
      destruct (decide (next_id (customers (committed w)) = sub_customer_id s)) as [Heq|Hne].
      * rewrite <- Heq, next_id_fresh in Hc. discriminate.
      * rewrite lookup_insert_ne by exact Hne. eauto.
    + intros id s Hs. rewrite Hcm, Hsub in Hs. eauto.
    + apply (tokens_drawn_frame w); [congruence | congruence | exact Htok].
  - (* add_payment_method *)
    destruct (customers (committed w) !! cid) as [c|] eqn:Hc.
    + destruct (add_payment_method_run w cid data c Hq Hc) as (_ & Hdb & _ & Hu').
      rewrite Hdb in Hcm. rewrite Hu' in Hu.
      split; [exact Hq'| | |].
      * intros id s Hs. rewrite Hcm in Hs |- *. simpl in *. eauto.
      * intros id s Hs. rewrite Hcm in Hs. simpl in Hs. eauto.
      * intros id pm Hl. rewrite Hcm in Hl. simpl in Hl. rewrite Hu.
        apply lookup_insert_Some in Hl as [[_ <-] | [_ Hl]].
        -- exists (uuid_calls w). split; [lia | reflexivity].
        -- destruct (Htok id pm Hl) as (n & Hn & Ht). exists n. split; [lia | exact Ht].
    + rewrite add_payment_method_absent in Hcm, Hu by (rewrite Hq; exact Hc).
      simpl in Hcm, Hu.
      split; [exact Hq'| | |].
      * intros id s Hs. rewrite Hcm in Hs |- *. eauto.
      * intros id s Hs. rewrite Hcm in Hs. eauto.
      * apply (tokens_drawn_frame w); [congruence | congruence | exact Htok].
  - (* process_payment_route *)
    destruct (process_payment_route_frame w data) as (Hdb & _ & Hu').
    rewrite Hdb in Hcm. rewrite Hu' in Hu.
    split; [exact Hq'| | |].
    + intros id s Hs. rewrite Hcm in Hs |- *. eauto.
    + intros id s Hs. rewrite Hcm in Hs. eauto.
    + apply (tokens_drawn_frame w); [congruence | congruence | exact Htok].
  - (* create_subscription *)
    destruct (customers (committed w) !! App.sd_customer_id data) as [c|] eqn:Hc.
    + destruct (create_subscription_run w data c Hq Hc) as (_ & Hdb & _ & Hu' & _).
      rewrite Hdb in Hcm. rewrite Hu' in Hu.
      split; [exact Hq'| | |].
      * intros id s Hs. rewrite Hcm in Hs |- *. simpl in *.
        apply lookup_insert_Some in Hs as [[_ <-] | [_ Hs]]; simpl; eauto.
      * intros id s Hs. rewrite Hcm in Hs. simpl in Hs.
        apply lookup_insert_Some in Hs as [[_ <-] | [_ Hs]]; [|eauto].
        unfold end_date_iff_canceled. simpl. split.
        -- intros [x Hx]. discriminate.
        -- intros Hx. discriminate.
      * apply (tokens_drawn_frame w); [rewrite Hcm; reflexivity | congruence | exact Htok].
    + rewrite create_subscription_absent in Hcm, Hu by (rewrite Hq; exact Hc).
      simpl in Hcm, Hu.
      split; [exact Hq'| | |].
      * intros id s Hs. rewrite Hcm in Hs |- *. eauto.
      * intros id s Hs. rewrite Hcm in Hs. eauto.
      * apply (tokens_drawn_frame w); [congruence | congruence | exact Htok].
  - (* cancel_subscription *)
    destruct (subscriptions (committed w) !! sid) as [s0|] eqn:Hs0.
    + destruct (Hfk sid s0 Hs0) as [c Hc].
      destruct (cancel_subscription_run w sid s0 c Hq Hs0 Hc) as (_ & Hdb & _ & _ & Hu' & _).
      rewrite Hdb in Hcm. rewrite Hu' in Hu.
      split; [exact Hq'| | |].
      * intros id s Hs. rewrite Hcm in Hs |- *. simpl in *.
        apply lookup_insert_Some in Hs as [[_ <-] | [_ Hs]]; simpl; eauto.
      * intros id s Hs. rewrite Hcm in Hs. simpl in Hs.
        apply lookup_insert_Some in Hs as [[_ <-] | [_ Hs]]; [|eauto].
        unfold end_date_iff_canceled. simpl. split; eauto.
      * apply (tokens_drawn_frame w); [rewrite Hcm; reflexivity | congruence | exact Htok].
    + rewrite cancel_subscription_absent in Hcm, Hu by (rewrite Hq; exact Hs0).
      simpl in Hcm, Hu.
      split; [exact Hq'| | |].
      * intros id s Hs. rewrite Hcm in Hs |- *. eauto.
      * intros id s Hs. rewrite Hcm in Hs. eauto.
      * apply (tokens_drawn_frame w); [congruence | congruence | exact Htok].
Qed.

Lemma reachable_invariant (w : World F) : App.reachable env w -> invariant env w.
Proof.
  induction 1 as [|r w _ IH]; [apply initial_invariant | apply serve_invariant, IH].
Qed.

(** ** Subscription creation *)

(** C1 (amended): for an existing customer, [create_subscription] stores one
    new subscription, active and started at the first clock reading, and
    exactly one new invoice, pending, for the subscription price, due 7 days
    after the second clock reading, the one [generate_invoice] takes once the
    subscription is committed; one invoice message goes to the customer.
    The due date is [start_date] plus 7 days plus whatever time passed
    between the two readings. *)
Theorem create_subscription_effect (w : World F) (data : App.SubscriptionData F)
    (c : Customer) :
  App.reachable env w ->
  customers (committed w) !! App.sd_customer_id data = Some c ->
  let start_date := clock env (clock_reads w) in
  let invoiced_at := clock env (S (clock_reads w)) in
  let sid := next_id (subscriptions (committed w)) in
  let iid := next_id (invoices (committed w)) in
  let subscription :=
    mkSubscription (App.sd_customer_id data) (App.sd_plan_name data) (App.sd_price data)
      (App.sd_billing_interval data) start_date None "active" in
  let invoice :=
    mkInvoice (App.sd_customer_id data) sid (App.sd_price data) "pending"
      (invoiced_at + timedelta_days 7) in
  let w' := (App.create_subscription env data w).2 in
  (App.create_subscription env data w).1
    = Return ([("id", JInt sid); ("plan_name", JStr (App.sd_plan_name data));
               ("status", JStr "active"); ("invoice_id", JInt iid)], 201) /\
  subscriptions (committed w) !! sid = None /\
  subscriptions (committed w') = <[sid := subscription]> (subscriptions (committed w)) /\
  invoices (committed w) !! iid = None /\
  invoices (committed w') = <[iid := invoice]> (invoices (committed w)) /\
  size (invoices (committed w')) = S (size (invoices (committed w))) /\
  inv_amount invoice = sub_price subscription /\
  inv_due_date invoice
    = sub_start_date subscription + timedelta_days 7 + (invoiced_at - start_date) /\
  outbox w' = outbox w ++
    [(mkEmail "billing@example.com" (cust_email c) ("Invoice #" +:+ pretty iid)
        (App.invoice_body (App.sd_plan_name data) (App.sd_price data)
           (inv_due_date invoice)),
      smtp env (smtp_sessions w))].
Proof.
  intros Hr Hc. cbv zeta.
  destruct (reachable_invariant w Hr) as [Hq _ _ _].
  destruct (create_subscription_run w data c Hq Hc) as (Hret & Hdb & _ & _ & Hout).
  rewrite Hret, Hdb, Hout. simpl.
  repeat split; try apply next_id_fresh.
  - apply map_size_insert_None, next_id_fresh.
  - lia.
Qed.

(** ** Cancellation *)

(** C2 (amended): for an existing subscription, [cancel_subscription] stores
    status 'canceled' and, as end date, the clock reading it takes first,
    whatever the sign of [days_remaining].  It then reads the clock a second
    time, and [days_remaining] is 30 minus the whole days from the start
    date to that second reading, not to the end date.  The refund message
    is sent exactly when [days_remaining] is positive, and its text ends
    with [(days_remaining / 30) * price] printed with two decimals; 30
    elapsed days at the second reading give no message and 29 give one for
    [(1 / 30) * price]. *)
Theorem cancel_subscription_effect (w : World F) (sid : Z) (s : Subscription F) :
  App.reachable env w ->
  subscriptions (committed w) !! sid = Some s ->
  let now := clock env (clock_reads w) in
  let elapsed := days (clock env (S (clock_reads w)) - sub_start_date s) in
  let remaining := 30 - elapsed in
  let w' := (App.cancel_subscription env sid w).2 in
  exists c, customers (committed w) !! sub_customer_id s = Some c /\
  (App.cancel_subscription env sid w).1
    = Return ([("id", JInt sid); ("status", JStr "canceled")], 200) /\
  subscriptions (committed w') !! sid = Some (canceled_at now s) /\
  sub_status (canceled_at now s) = "canceled" /\
  sub_end_date (canceled_at now s) = Some now /\
  (0 < remaining ->
     outbox w' = outbox w ++
       [(mkEmail "billing@example.com" (cust_email c) "Subscription Canceled"
           ("Your subscription has been canceled. Prorated refund: $"
              +:+ fmt_2f (fmul (fdiv (of_int remaining) (of_int 30)) (sub_price s))),
         smtp env (smtp_sessions w))]) /\
  (remaining <= 0 -> outbox w' = outbox w) /\
  (elapsed = 30 -> outbox w' = outbox w) /\
  (elapsed = 29 ->
     outbox w' = outbox w ++
       [(mkEmail "billing@example.com" (cust_email c) "Subscription Canceled"
           ("Your subscription has been canceled. Prorated refund: $"
              +:+ fmt_2f (fmul (fdiv (of_int 1) (of_int 30)) (sub_price s))),
         smtp env (smtp_sessions w))]).
Proof.
  intros Hr Hs. cbv zeta.
  destruct (reachable_invariant w Hr) as [Hq Hfk _ _].
  destruct (Hfk sid s Hs) as [c Hc]. exists c. split; [exact Hc|].
  destruct (cancel_subscription_run w sid s c Hq Hs Hc) as (Hret & Hdb & _ & _ & _ & Hout).
  rewrite Hret, Hdb, Hout. unfold days_remaining. simpl.
  split; [reflexivity|]. split; [apply lookup_insert_eq|].
  split; [reflexivity|]. split; [reflexivity|].
  repeat split.
  - intros Hpos. apply Z.ltb_lt in Hpos. rewrite Hpos. reflexivity.
  - intros Hneg. apply Z.ltb_ge in Hneg. rewrite Hneg. apply app_nil_r.
  - intros ->. simpl. apply app_nil_r.
  - intros ->. reflexivity.
Qed.

(** [send_email] of [app.py] catches what the transport raises. *)
Lemma send_email_total (e : Env F) (to_email subject body : string) (w : World F) :
  (App.send_email e to_email subject body w).1
    = Return (match smtp e (smtp_sessions w) with
              | Delivered => true
              | SmtpError _ => false
              end).
Proof. unfold_routes. destruct (smtp e (smtp_sessions w)); reflexivity. Qed.

(** C3: the cancellation is committed whatever happens to the refund
    message: with any SMTP server in place of the current one, one that
    refuses or raises included, [send_email] returns a boolean instead of
    raising, [cancel_subscription] returns 200, and the committed database,
    with the subscription canceled and its end date set, is the same. *)
Theorem cancel_subscription_persists_whatever_smtp (w : World F) (sid : Z)
    (s : Subscription F) (transport : nat -> SmtpOutcome) :
  App.reachable env w ->
  subscriptions (committed w) !! sid = Some s ->
  let env' := with_smtp transport env in
  let w' := (App.cancel_subscription env' sid w).2 in
  (forall to_email subject body w0,
     (App.send_email env' to_email subject body w0).1
       = Return (match transport (smtp_sessions w0) with
                 | Delivered => true
                 | SmtpError _ => false
                 end)) /\
  (App.cancel_subscription env' sid w).1
    = Return ([("id", JInt sid); ("status", JStr "canceled")], 200) /\
  subscriptions (committed w') !! sid
    = Some (canceled_at (clock env (clock_reads w)) s) /\
  committed w' = committed (App.cancel_subscription env sid w).2.
Proof.
  intros Hr Hs. cbv zeta.
  destruct (reachable_invariant w Hr) as [Hq Hfk _ _].
  destruct (Hfk sid s Hs) as [c Hc].
  split; [intros; apply (send_email_total (with_smtp transport env))|].
  destruct (cancel_subscription_run w sid s c Hq Hs Hc) as (_ & Hdb & _).
  rewrite Hdb. clear Hdb.
  open_world w Hq. unfold_routes. simpl. rewrite Hs. simpl.
  rewrite insert_insert_eq. unfold canceled_at.
  destruct (0 <? _); simpl.
  - rewrite Hc. simpl. destruct (transport sessions); simpl;
      (split; [reflexivity|]); (split; [apply lookup_insert_eq | reflexivity]).
  - split; [reflexivity|]. split; [apply lookup_insert_eq | reflexivity].
Qed.

(** C8: canceling a canceled subscription runs the whole effect again: the
    end date is overwritten with the new current time and the proration is
    computed against the original start date, so that a second cancellation
    fewer than 30 days after the start sends the refund message again. *)
Theorem cancel_subscription_not_idempotent (w : World F) (sid : Z)
    (s : Subscription F) (c : Customer) :
  App.reachable env w ->
  subscriptions (committed w) !! sid = Some s ->
  customers (committed w) !! sub_customer_id s = Some c ->
  let w1 := App.serve env (App.PostCancel sid) w in
  let w2 := App.serve env (App.PostCancel sid) w1 in
  let first := clock env (clock_reads w) in
  let second := clock env (clock_reads w1) in
  let elapsed := days (clock env (S (clock_reads w1)) - sub_start_date s) in
  subscriptions (committed w1) !! sid = Some (canceled_at first s) /\
  subscriptions (committed w2) !! sid = Some (canceled_at second s) /\
  sub_start_date (canceled_at second s) = sub_start_date s /\
  (elapsed < 30 ->
     outbox w2 = outbox w1 ++
       [(refund_email c (30 - elapsed) s, smtp env (smtp_sessions w1))]).
Proof.
  intros Hr Hs Hc. cbv zeta.
  pose proof (reachable_invariant w Hr) as [Hq _ _ _].
  pose proof (reachable_invariant _ (App.reachable_serve env (App.PostCancel sid) w Hr))
    as [Hq1 _ _ _].
  destruct (cancel_subscription_run w sid s c Hq Hs Hc) as (_ & Hdb & _).
  destruct (committed_serve (App.PostCancel sid) w) as (Hcm & _).
  simpl in Hcm. rewrite Hdb in Hcm.
  set (w1 := App.serve env (App.PostCancel sid) w) in *.
  assert (Hs1 : subscriptions (committed w1) !! sid
                = Some (canceled_at (clock env (clock_reads w)) s)).
  { rewrite Hcm. simpl. apply lookup_insert_eq. }
  assert (Hc1 : customers (committed w1)
                  !! sub_customer_id (canceled_at (clock env (clock_reads w)) s) = Some c).
  { rewrite Hcm. simpl. exact Hc. }
  destruct (cancel_subscription_run w1 sid _ c Hq1 Hs1 Hc1) as (_ & Hdb2 & _ & _ & _ & Hout2).
  destruct (committed_serve (App.PostCancel sid) w1) as (Hcm2 & _ & _ & Hob2 & _).
  simpl in Hcm2, Hob2. rewrite Hdb2 in Hcm2. rewrite Hout2 in Hob2.
  split; [exact Hs1|]. split.
  - rewrite Hcm2. simpl. apply lookup_insert_eq.
  - split; [reflexivity|]. intros Hlt. rewrite Hob2.
    unfold days_remaining. simpl.
    replace (0 <? 30 - days (clock env (S (clock_reads w1)) - sub_start_date s))
      with true by (symmetry; apply Z.ltb_lt; lia).
    reflexivity.
Qed.

(** C7: in every world the application can reach, a stored subscription has
    an end date if and only if its status is 'canceled'. *)
Theorem end_date_set_iff_canceled (w : World F) (id : Z) (s : Subscription F) :
  App.reachable env w ->
  subscriptions (committed w) !! id = Some s ->
  is_Some (sub_end_date s) <-> sub_status s = "canceled".
Proof.
  intros Hr Hs. exact (inv_end_date env w (reachable_invariant w Hr) id s Hs).
Qed.

(** ** Dunning *)

(** C10: [send_email] of [dunning_service.py] prints one line and returns
    [True] on every input, so that [handle_failed_payment], which calls it,
    has no failing notification to deal with and returns normally. *)
Theorem dunning_send_email_always_true (to_email subject body : string) (w : World F) :
  DunningService.send_email to_email subject body w
    = (Return true, write_stdout (mock_line to_email subject body) w)
  /\ forall customer payment_method amount,
       (DunningService.handle_failed_payment env customer payment_method amount w).1
         = Return tt.
Proof. split; reflexivity. Qed.

(** C4: [handle_failed_payment] reads the clock once, takes the retry date
    two days later, announces it, issues one notification to the customer's
    address whose text states the failed amount and that retry date, and
    returns normally; the database, the session, the random generator and
    the SMTP server are left as they were.  The two printed lines are
    spelled out in full. *)
Theorem handle_failed_payment_effect (customer : Customer)
    (payment_method : PaymentMethod) (amount : F) (w : World F) :
  let retry_date := clock env (clock_reads w) + timedelta_days 2 in
  let run := DunningService.handle_failed_payment env customer payment_method amount w in
  run.1 = Return tt /\
  stdout run.2 = stdout w ++
    ["Scheduled retry for " +:+ cust_email customer +:+ " on "
       +:+ str_datetime retry_date;
     "Mock sending email to " +:+ cust_email customer +:+ ": Payment Failed - "
       +:+ ("Payment of $" +:+ fmt_2f amount +:+ " failed. We'll retry on "
              +:+ str_datetime retry_date
              +:+ ". Please update your payment method.")] /\
  clock_reads run.2 = S (clock_reads w) /\
  committed run.2 = committed w /\
  session run.2 = session w /\
  rng_calls run.2 = rng_calls w /\
  smtp_sessions run.2 = smtp_sessions w /\
  outbox run.2 = outbox w.
Proof.
  cbv zeta. unfold_routes. simpl. repeat split.
  rewrite <- app_assoc. reflexivity.
Qed.

(** ** The gateway *)

Lemma mock_payment_gateway_run (token : string) (amount : F) (w : World F) :
  PaymentService.mock_payment_gateway env token amount w
    = if fltb (unit_draw env (rng_calls w)) lit_0_7
      then (Return (success_result
                      (pretty (1000 + int_draw env (S (rng_calls w)) `mod` 9000))),
            tick_rng (tick_rng w))
      else (Return failed_result, tick_rng w).
Proof.
  unfold_routes. simpl. destruct (fltb _ _); reflexivity.
Qed.

(** C6: the gateway looks at neither the token nor the amount.  Two calls
    that draw the same [r], from whatever worlds and with whatever
    arguments, agree: both succeed, each with a transaction id of
    1000..9999, when [r < 0.7], and both are declined with
    'insufficient_funds' otherwise; when the generator also gives the same
    next draw the two results are equal.  A call changes nothing but the
    position of the random generator. *)
Theorem mock_payment_gateway_outcome (w1 w2 : World F) (token1 token2 : string)
    (amount1 amount2 : F) :
  unit_draw env (rng_calls w1) = unit_draw env (rng_calls w2) ->
  let r := unit_draw env (rng_calls w1) in
  let run1 := PaymentService.mock_payment_gateway env token1 amount1 w1 in
  let run2 := PaymentService.mock_payment_gateway env token2 amount2 w2 in
  exists result1 result2,
    run1.1 = Return result1 /\ run2.1 = Return result2 /\
    dict_get "status" result1 = dict_get "status" result2 /\
    (if fltb r lit_0_7
     then exists n1 n2, 1000 <= n1 <= 9999 /\ 1000 <= n2 <= 9999 /\
            result1 = success_result (pretty n1) /\
            result2 = success_result (pretty n2)
     else result1 = failed_result /\ result2 = failed_result) /\
    (int_draw env (S (rng_calls w1)) = int_draw env (S (rng_calls w2)) ->
     result1 = result2) /\
    committed run1.2 = committed w1 /\ session run1.2 = session w1 /\
    stdout run1.2 = stdout w1 /\ outbox run1.2 = outbox w1 /\
    clock_reads run1.2 = clock_reads w1.
Proof.
  intros Hr. cbv zeta. rewrite !mock_payment_gateway_run, <- Hr.
  destruct (fltb _ _); simpl.
  - eexists _, _. split; [reflexivity|]. split; [reflexivity|].
    split; [reflexivity|]. split.
    + eexists _, _. split; [|split; [|split; reflexivity]].
      * pose proof (Z.mod_pos_bound (int_draw env (S (rng_calls w1))) 9000). lia.
      * pose proof (Z.mod_pos_bound (int_draw env (S (rng_calls w2))) 9000). lia.
    + split; [intros ->; reflexivity|]. repeat split.
  - exists failed_result, failed_result. repeat split.
Qed.

(** C5 (amended): once the payment method is found, [process_payment_route]
    asks the gateway once.  On success it returns 200 with the world the
    gateway left: nothing printed, no clock read.  On a decline it looks up
    the customer: when the customer exists it runs [handle_failed_payment]
    once on that world and returns 400; when the customer is absent it
    aborts with NotFound and [handle_failed_payment] is not run. *)
Theorem process_payment_route_dunning (w : World F) (data : App.PaymentData F)
    (pm : PaymentMethod) :
  payment_methods (session w) !! App.pd_payment_method_id data = Some pm ->
  let gateway := PaymentService.process_payment env pm (App.pd_amount data) w in
  let route := App.process_payment_route env data w in
  exists result, gateway.1 = Return result /\
    stdout gateway.2 = stdout w /\ clock_reads gateway.2 = clock_reads w /\
    if fltb (unit_draw env (rng_calls w)) lit_0_7
    then route = (Return (result, 200), gateway.2)
    else match customers (session w) !! App.pd_customer_id data with
         | Some customer =>
             let dunning := DunningService.handle_failed_payment env customer pm
                              (App.pd_amount data) gateway.2 in
             dunning.1 = Return tt /\ route = (Return (result, 400), dunning.2)
         | None => route = (Raise NotFound, gateway.2)
         end.
Proof.
  intros Hpm. cbv zeta.
  destruct w as [cm ss reads sessions uuids draws out sent]. simpl in Hpm.
  unfold_routes. simpl. rewrite Hpm. simpl.
  destruct (fltb _ _); simpl.
  - eexists. repeat split.
  - eexists. split; [reflexivity|]. split; [reflexivity|]. split; [reflexivity|].
    destruct (customers ss !! _); simpl; [split|]; reflexivity.
Qed.

(** ** Payment methods *)

(** C9 (amended): for an existing customer, [add_payment_method] stores one
    new row holding the slice [card_number[-4:]] and the uuid drawn for this
    call.  The slice is a suffix of the supplied number of at most 4
    characters; a number of more than 4 characters is cut to its last 4 and
    so is not stored whole, a shorter one is stored as supplied.  No stored
    method already carries the new token as long as [uuid4] never returns
    the same value twice. *)
Theorem add_payment_method_effect (w : World F) (cid : Z)
    (data : App.PaymentMethodData) (c : Customer) :
  App.reachable env w ->
  customers (committed w) !! cid = Some c ->
  let card := App.pmd_card_number data in
  let pid := next_id (payment_methods (committed w)) in
  let pm := mkPaymentMethod cid (slice_from (-4) card) (uuid4 env (uuid_calls w)) in
  let w' := (App.add_payment_method env cid data w).2 in
  payment_methods (committed w) !! pid = None /\
  payment_methods (committed w') = <[pid := pm]> (payment_methods (committed w)) /\
  (exists prefix, card = prefix +:+ pm_card_number pm) /\
  String.length (pm_card_number pm) = Nat.min 4 (String.length card) /\
  ((4 < String.length card)%nat -> pm_card_number pm <> card) /\
  ((String.length card <= 4)%nat -> pm_card_number pm = card) /\
  ((forall i j, uuid4 env i = uuid4 env j -> i = j) ->
   forall id pm0, payment_methods (committed w) !! id = Some pm0 ->
     pm_token pm0 <> pm_token pm).
Proof.
  intros Hr Hc. cbv zeta.
  destruct (reachable_invariant w Hr) as [Hq _ _ Htok].
  destruct (add_payment_method_run w cid data c Hq Hc) as (_ & Hdb & _).
  rewrite Hdb. simpl.
  split; [apply next_id_fresh|]. split; [reflexivity|].
  split; [apply last4_suffix|]. split; [apply last4_length|].
  split; [apply last4_long|]. split; [apply last4_short|].
  intros Hinj id pm0 Hpm0 Heq.
  destruct (Htok id pm0 Hpm0) as (n & Hn & Hdrawn).
  rewrite Hdrawn in Heq. apply Hinj in Heq. lia.
Qed.
End Properties.

(** * The scripted history, step by step *)

Import Scripted.

Lemma w_card_reachable : App.reachable env0 w_card.
Proof. repeat constructor. Defined.

Lemma w_sub_reachable : App.reachable env0 w_sub.
Proof. repeat constructor. Defined.

(** The subscription of the scripted history starts at 1000 microseconds
    and its invoice is due 7 days after 1005 microseconds: the due date is
    not the start date plus 7 days. *)
Lemma create_subscription_due_date_counterexample :
  let w' := (App.create_subscription env0 pro_plan w_card).2 in
  customers (committed w_card) !! 1 = Some alice_row /\
  subscriptions (committed w') !! 1 = Some pro_row /\
  invoices (committed w') !! 1
    = Some (mkInvoice 1 1 (2999 # 100)%Q "pending" 604800001005) /\
  604800001005 <> sub_start_date pro_row + timedelta_days 7.
Proof. repeat split; try evaluate. vm_compute. discriminate. Qed.

Lemma create_subscription_effect_witness :
  let w' := (App.create_subscription env0 pro_plan w_card).2 in
  invoices (committed w') = {[ 1 := mkInvoice 1 1 (2999 # 100)%Q "pending" 604800001005 ]}
  /\ subscriptions (committed w') = {[ 1 := pro_row ]}
  /\ outbox w' = [(mkEmail "billing@example.com" "a@b.com" "Invoice #1"
                     "New invoice for Pro. Amount: $29.99, Due: t604800001005",
                   Delivered)].
Proof.
  assert (Hc : customers (committed w_card) !! App.sd_customer_id pro_plan = Some alice_row)
    by evaluate.
  destruct (create_subscription_effect env0 w_card pro_plan alice_row w_card_reachable Hc)
    as (_ & _ & Hsub & _ & Hinv & _ & _ & _ & Hout).
  cbv zeta. rewrite Hinv, Hsub, Hout. repeat split; evaluate.
Defined.

(** Canceled ten days after the start: 20 days remain and the refund
    message states (20/30) of 29.99. *)
Lemma cancel_subscription_effect_witness :
  let w' := (App.cancel_subscription env0 1 w_sub).2 in
  subscriptions (committed w') !! 1
    = Some (mkSubscription 1 "Pro" (2999 # 100)%Q "monthly" 1000
                           (Some 864000001000) "canceled") /\
  outbox w' = outbox w_sub ++
    [(mkEmail "billing@example.com" "a@b.com" "Subscription Canceled"
        "Your subscription has been canceled. Prorated refund: $19.99",
      SmtpError "Connection refused")].
Proof.
  assert (Hs : subscriptions (committed w_sub) !! 1 = Some pro_row) by evaluate.
  destruct (cancel_subscription_effect env0 w_sub 1 pro_row w_sub_reachable Hs)
    as (c & Hc & _ & Hrow & _ & _ & Hsent & _).
  assert (c = alice_row) as ->.
  { assert (Hc' : customers (committed w_sub) !! sub_customer_id pro_row = Some alice_row)
      by evaluate.
    congruence. }
  cbv zeta. rewrite Hrow, Hsent; [|vm_compute; reflexivity].
  split; evaluate.
Defined.

(** A cancellation whose two clock readings straddle the thirtieth day:
    the end date stored lies 29 whole days after the start, so that 30
    minus the days elapsed at the end date is 1, and no refund message is
    sent, because the second reading is 30 days after the start. *)
Lemma cancel_subscription_straddle_counterexample :
  let w' := (App.cancel_subscription straddle_env 1 w_straddle).2 in
  subscriptions (committed w_straddle) !! 1 = Some pro_row /\
  subscriptions (committed w') !! 1 = Some (canceled_at 2592000000999 pro_row) /\
  30 - days (2592000000999 - sub_start_date pro_row) = 1 /\
  outbox w' = outbox w_straddle.
Proof.
  split; [evaluate|]. split; [evaluate|]. split; evaluate.
Qed.

Lemma handle_failed_payment_effect_witness :
  stdout (DunningService.handle_failed_payment env0 alice_row visa_row (10 # 1)%Q w_card).2
    = ["Scheduled retry for a@b.com on t172800001000";
       "Mock sending email to a@b.com: Payment Failed - Payment of $10.00 failed. We'll retry on t172800001000. Please update your payment method."].
Proof.
  destruct (handle_failed_payment_effect env0 alice_row visa_row (10 # 1)%Q w_card)
    as (_ & Hout & _).
  rewrite Hout. evaluate.
Defined.

Lemma cancel_subscription_persists_whatever_smtp_witness :
  let w' := (App.cancel_subscription (with_smtp smtp_down env0) 1 w_sub).2 in
  subscriptions (committed w') !! 1
    = Some (mkSubscription 1 "Pro" (2999 # 100)%Q "monthly" 1000
                           (Some 864000001000) "canceled") /\
  committed w' = committed w_canceled.
Proof.
  assert (Hs : subscriptions (committed w_sub) !! 1 = Some pro_row) by evaluate.
  destruct (cancel_subscription_persists_whatever_smtp env0 w_sub 1 pro_row smtp_down
              w_sub_reachable Hs) as (_ & _ & Hrow & Hsame).
  cbv zeta. rewrite Hrow. split; [evaluate|]. rewrite Hsame. evaluate.
Defined.

Lemma end_date_set_iff_canceled_witness :
  is_Some (Some 864000001000) <-> "canceled" = "canceled".
Proof.
  assert (Hr : App.reachable env0 w_canceled) by (repeat constructor).
  assert (Hs : subscriptions (committed w_canceled) !! 1
               = Some (canceled_at 864000001000 pro_row)) by evaluate.
  exact (end_date_set_iff_canceled env0 w_canceled 1 _ Hr Hs).
Defined.

(** Canceled a second time twelve days after the start: the end date moves
    and a second refund message goes out. *)
Lemma cancel_subscription_not_idempotent_witness :
  let w2 := App.serve env0 (App.PostCancel 1) w_canceled in
  subscriptions (committed w_canceled) !! 1
    = Some (canceled_at 864000001000 pro_row) /\
  subscriptions (committed w2) !! 1
    = Some (canceled_at 1036800001000 pro_row) /\
  outbox w2 = outbox w_canceled ++
    [(mkEmail "billing@example.com" "a@b.com" "Subscription Canceled"
        "Your subscription has been canceled. Prorated refund: $17.99",
      Delivered)].
Proof.
  assert (Hs : subscriptions (committed w_sub) !! 1 = Some pro_row) by evaluate.
  assert (Hc : customers (committed w_sub) !! sub_customer_id pro_row = Some alice_row)
    by evaluate.
  destruct (cancel_subscription_not_idempotent env0 w_sub 1 pro_row alice_row
              w_sub_reachable Hs Hc) as (Hfirst & Hsecond & _ & Hsent).
  cbv zeta. fold w_canceled in Hfirst, Hsecond, Hsent.
  rewrite Hfirst, Hsecond, Hsent; [|vm_compute; reflexivity].
  repeat split; evaluate.
Defined.

(** A declined payment for a customer id that is not in the ledger: the
    route aborts with NotFound and nothing of [handle_failed_payment]
    happened. *)
Lemma declined_payment_unknown_customer_counterexample :
  let data := App.mkPaymentData 7 (10 # 1)%Q 1 in
  let route := App.process_payment_route env0 data w_card in
  payment_methods (committed w_card) !! 1 = Some visa_row /\
  (PaymentService.process_payment env0 visa_row (10 # 1)%Q w_card).1
    = Return failed_result /\
  route.1 = Raise NotFound /\
  stdout route.2 = stdout w_card /\
  clock_reads route.2 = clock_reads w_card /\
  (App.handle_request (App.process_payment_route env0 data) w_card).1 = (None, 404).
Proof. repeat split; evaluate. Qed.

Lemma process_payment_route_dunning_witness :
  let data := App.mkPaymentData 1 (10 # 1)%Q 1 in
  let route := App.process_payment_route env0 data w_card in
  route.1 = Return (failed_result, 400) /\
  stdout route.2 =
    ["Scheduled retry for a@b.com on t172800001000";
     "Mock sending email to a@b.com: Payment Failed - Payment of $10.00 failed. We'll retry on t172800001000. Please update your payment method."].
Proof.
  assert (Hpm : payment_methods (session w_card)
                  !! App.pd_payment_method_id (App.mkPaymentData 1 (10 # 1)%Q 1)
                = Some visa_row) by evaluate.
  destruct (process_payment_route_dunning env0 w_card _ visa_row Hpm)
    as (result & Hresult & _ & _ & Hroute).
  cbv zeta.
  change (fltb (unit_draw env0 (rng_calls w_card)) lit_0_7) with false in Hroute.
  change (customers (session w_card) !! App.pd_customer_id (App.mkPaymentData 1 (10 # 1)%Q 1))
    with (Some alice_row) in Hroute.
  vm_compute in Hresult. injection Hresult as <-.
  destruct Hroute as [_ ->]. split; evaluate.
Defined.

(** The second draw of the scripted generator is 0.5: two calls with
    different tokens and amounts both succeed, with the same transaction id. *)
Lemma mock_payment_gateway_outcome_witness :
  (PaymentService.mock_payment_gateway env0 "uuid-0" (10 # 1)%Q w_declined).1
    = Return (success_result "1002") /\
  (PaymentService.mock_payment_gateway env0 "another-token" (99999 # 1)%Q w_declined).1
    = Return (success_result "1002").
Proof.
  destruct (mock_payment_gateway_outcome env0 w_declined w_declined
              "uuid-0" "another-token" (10 # 1)%Q (99999 # 1)%Q eq_refl)
    as (result1 & result2 & H1 & H2 & _ & _ & Hsame & _).
  rewrite H1, H2, <- (Hsame eq_refl).
  vm_compute in H1. injection H1 as <-. split; reflexivity.
Defined.

(** A card number of three characters is stored whole. *)
Lemma short_card_number_counterexample :
  let data := App.mkPaymentMethodData "123" in
  let w' := (App.add_payment_method env0 1 data w_alice).2 in
  customers (committed w_alice) !! 1 = Some alice_row /\
  exists pm, payment_methods (committed w') !! 1 = Some pm /\
             pm_card_number pm = App.pmd_card_number data.
Proof.
  split; [evaluate|]. exists (mkPaymentMethod 1 "123" "uuid-0"). split; evaluate.
Qed.

Lemma env0_uuid4_inj (i j : nat) : uuid4 env0 i = uuid4 env0 j -> i = j.
Proof.
  change (String.app "uuid-" (pretty i) = String.app "uuid-" (pretty j) -> i = j).
  intros Heq. apply (inj (String.app "uuid-")) in Heq. apply (inj pretty), Heq.
Defined.

(** A second card added by Alice: the last four digits and a token that
    differs from the first card's. *)
Lemma add_payment_method_effect_witness :
  let w' := (App.add_payment_method env0 1 mastercard w_card).2 in
  payment_methods (committed w')
    = {[ 1 := visa_row; 2 := mkPaymentMethod 1 "0004" "uuid-1" ]} /\
  "0004" <> App.pmd_card_number mastercard /\
  pm_token visa_row <> "uuid-1".
Proof.
  assert (Hc : customers (committed w_card) !! 1 = Some alice_row) by evaluate.
  destruct (add_payment_method_effect env0 w_card 1 mastercard alice_row
              w_card_reachable Hc) as (_ & Hrows & _ & _ & Hlong & _ & Hfresh).
  cbv zeta. rewrite Hrows. split; [evaluate|]. split.
  - apply Hlong. vm_compute. lia.
  - apply (Hfresh env0_uuid4_inj 1 visa_row). evaluate.
Defined.

(** * The ledger over whole histories *)

Section Ledger.
Context {F : Type} `{Number F} (env : Env F).

(** ** The unique constraint on emails *)

Lemma email_taken_spec (email : string) (t : gmap Z Customer) :
  App.email_taken email t = true
  <-> exists id c, t !! id = Some c /\ cust_email c = email.
Proof.
  unfold App.email_taken. rewrite existsb_exists. split.
  - intros ([id c] & Hin & Heq). exists id, c. split.
    + apply elem_of_map_to_list, list_elem_of_In, Hin.
    + apply String.eqb_eq, Heq.
  - intros (id & c & Hl & Heq). exists (id, c). split.
    + apply list_elem_of_In, elem_of_map_to_list, Hl.
    + apply String.eqb_eq, Heq.
Qed.

Lemma email_free_spec (email : string) (t : gmap Z Customer) :
  App.email_taken email t = false
  <-> forall id c, t !! id = Some c -> cust_email c <> email.
Proof.
  split.
  - intros Hf id c Hl Heq.
    assert (App.email_taken email t = true) by (apply email_taken_spec; eauto).
    congruence.
  - intros Hfree. destruct (App.email_taken email t) eqn:Ht; [|reflexivity].
    apply email_taken_spec in Ht as (id & c & Hl & Heq). destruct (Hfree id c Hl Heq).
Qed.

(** ** One request as a step of the ledger *)

Lemma serve_ledger_step (r : App.Request) (w : World F) :
  invariant env w -> ledger_step env w (App.serve env r w).
Proof.
  intros [Hq Hfk _ _].
  destruct r as [data|cid data|data|data|sid].
  - destruct (App.email_taken (App.cd_email data) (customers (committed w))) eqn:Ht.
    + open_world w Hq. apply step_unchanged; unfold_routes; simpl; rewrite Ht; simpl;
        [reflexivity | lia | reflexivity].
    + apply (step_customer env w _
               (mkCustomer (App.cd_email data) (default "" (App.cd_name data))
                           (default "user" (App.cd_role data)))).
      * apply email_free_spec, Ht.
      * open_world w Hq. unfold_routes. simpl. rewrite Ht. reflexivity.
      * open_world w Hq. unfold_routes. simpl. rewrite Ht. reflexivity.
      * open_world w Hq. unfold_routes. simpl. rewrite Ht. reflexivity.
  - destruct (customers (committed w) !! cid) as [c|] eqn:Hc.
    + apply (step_payment_method env w _ cid (App.pmd_card_number data)); [eauto|..];
        open_world w Hq; unfold_routes; simpl; rewrite Hc; reflexivity.
    + open_world w Hq. apply step_unchanged; unfold_routes; simpl; rewrite Hc; simpl;
        [reflexivity | lia | reflexivity].
  - open_world w Hq. apply step_unchanged; unfold_routes; simpl;
      (destruct (payment_methods cm !! _); simpl; [|reflexivity || lia]);
      (destruct (fltb _ _); simpl; [reflexivity || lia|]);
      (destruct (customers cm !! _); simpl; reflexivity || lia).
  - destruct (customers (committed w) !! App.sd_customer_id data) as [c|] eqn:Hc.
    + apply (step_subscription env w _ (App.sd_customer_id data) (App.sd_plan_name data)
               (App.sd_price data) (App.sd_billing_interval data)); [eauto|..];
        open_world w Hq; unfold_routes; simpl; rewrite Hc; simpl;
        destruct (smtp env sessions); reflexivity.
    + open_world w Hq. apply step_unchanged; unfold_routes; simpl; rewrite Hc; simpl;
        [reflexivity | lia | reflexivity].
  - destruct (subscriptions (committed w) !! sid) as [s|] eqn:Hs.
    + destruct (Hfk sid s Hs) as [c Hc].
      apply (step_cancel env w _ sid s); [exact Hs|..];
        open_world w Hq; unfold_routes; simpl; rewrite Hs; simpl;
        rewrite ?insert_insert_eq; unfold canceled_at;
        (destruct (0 <? _); simpl; [rewrite Hc; simpl; destruct (smtp env sessions)|]);
        reflexivity.
    + open_world w Hq. apply step_unchanged; unfold_routes; simpl; rewrite Hs; simpl;
        [reflexivity | lia | reflexivity].
Qed.

(** ** Consistency is kept by every step *)

Lemma lookup_insert_fresh {T} (m : gmap Z T) (k : Z) (x y : T) :
  m !! k = Some x -> <[next_id m := y]> m !! k = Some x.
Proof.
  intros Hk. rewrite lookup_insert_ne; [exact Hk|].
  intros Heq. rewrite <- Heq, next_id_fresh in Hk. discriminate.
Qed.

Lemma lookup_insert_old {T} (m : gmap Z T) (k : Z) (x y : T) :
  <[next_id m := y]> m !! k = Some x -> k = next_id m /\ x = y \/ m !! k = Some x.
Proof.
  intros Hk. apply lookup_insert_Some in Hk as [[<- <-] | [_ Hk]]; [left | right]; auto.
Qed.

Lemma subscription_times_later (w w' : World F) (s : Subscription F) :
  (clock_reads w <= clock_reads w')%nat ->
  subscription_times env w s -> subscription_times env w' s.
Proof.
  intros Hle (n & Hn & Hstart & Hend). exists n. split; [lia|]. split; [exact Hstart|].
  intros e He. destruct (Hend e He) as (m & Hm & ->). exists m. split; [lia | reflexivity].
Qed.

Lemma step_ledger_consistent (w w' : World F) :
  invariant env w -> ledger_consistent env w -> ledger_step env w w' ->
  ledger_consistent env w'.
Proof.
  intros [_ Hfk _ Htok] [Hem Hinv [Hhas Hone] Htimes Hstatus Hpm Hdistinct] Hstep.
  destruct Hstep as [Hdb Hclock Huuid
                    |c Hfree Hdb Hclock Huuid
                    |cid card Hcust Hdb Hclock Huuid
                    |cid plan price interval Hcust Hdb Hclock Huuid
                    |sid s0 Hs0 Hdb Hclock Huuid].
  - (* nothing written *)
    split.
    + rewrite Hdb. exact Hem.
    + rewrite Hdb. exact Hinv.
    + rewrite Hdb. split; assumption.
    + intros sid s Hs. rewrite Hdb in Hs.
      apply (subscription_times_later w); [exact Hclock | eauto].
    + rewrite Hdb. exact Hstatus.
    + rewrite Hdb. exact Hpm.
    + intros id1 id2 pm1 pm2. rewrite Hdb. apply Hdistinct.
  - (* a customer *)
    split.
    + rewrite Hdb. simpl. intros id1 id2 c1 c2 H1 H2 Heq.
      apply lookup_insert_old in H1 as [[-> ->] | H1];
        apply lookup_insert_old in H2 as [[-> ->] | H2]; eauto.
      * destruct (Hfree id2 c2 H2). congruence.
      * destruct (Hfree id1 c1 H1). congruence.
    + rewrite Hdb. exact Hinv.
    + rewrite Hdb. split; assumption.
    + intros sid s Hs. rewrite Hdb in Hs.
      apply (subscription_times_later w); [lia | eauto].
    + rewrite Hdb. exact Hstatus.
    + rewrite Hdb. simpl. intros id pm Hl.
      destruct (Hpm id pm Hl) as [[c0 Hc0] Hlen]. split; [|exact Hlen].
      simpl. exists c0. apply lookup_insert_fresh, Hc0.
    + intros id1 id2 pm1 pm2. rewrite Hdb. simpl. apply Hdistinct.
  - (* a payment method *)
    split.
    + rewrite Hdb. exact Hem.
    + rewrite Hdb. exact Hinv.
    + rewrite Hdb. split; assumption.
    + intros sid s Hs. rewrite Hdb in Hs.
      apply (subscription_times_later w); [lia | eauto].
    + rewrite Hdb. exact Hstatus.
    + rewrite Hdb. simpl. intros id pm Hl.
      apply lookup_insert_old in Hl as [[-> ->] | Hl].
      * split; [exact Hcust|]. simpl. rewrite last4_length. lia.
      * apply (Hpm id pm Hl).
    + intros id1 id2 pm1 pm2. rewrite Hdb. simpl. intros H1 H2 Hne.
      apply lookup_insert_old in H1 as [[-> ->] | H1];
        apply lookup_insert_old in H2 as [[-> ->] | H2].
      * congruence.
      * destruct (Htok id2 pm2 H2) as (n & Hn & Ht).
        exists (uuid_calls w), n. split; [lia|]. split; [reflexivity | exact Ht].
      * destruct (Htok id1 pm1 H1) as (n & Hn & Ht).
        exists n, (uuid_calls w). split; [lia|]. split; [exact Ht | reflexivity].
      * eauto.
  - (* a subscription and its invoice *)
    assert (Hold : forall iid i, invoices (committed w) !! iid = Some i ->
                     inv_subscription_id i <> next_id (subscriptions (committed w))).
    { intros iid i Hi Heq. destruct (Hinv iid i Hi) as (_ & s & n & Hs & _).
      rewrite Heq, next_id_fresh in Hs. discriminate. }
    split.
    + rewrite Hdb. exact Hem.
    + rewrite Hdb. simpl. intros iid i Hi.
      apply lookup_insert_old in Hi as [[-> ->] | Hi].
      * split; [reflexivity|]. eexists _, (clock_reads w). simpl.
        rewrite lookup_insert_eq. repeat split.
      * destruct (Hinv iid i Hi) as (Hst & s & n & Hs & Hrest).
        split; [exact Hst|]. exists s, n. simpl. split; [|exact Hrest].
        apply lookup_insert_fresh, Hs.
    + rewrite Hdb. split; simpl.
      * intros sid s Hs. apply lookup_insert_old in Hs as [[-> ->] | Hs].
        -- eexists _, _. split; [apply lookup_insert_eq | reflexivity].
        -- destruct (Hhas sid s Hs) as (iid & i & Hi & Hsid).
           exists iid, i. split; [apply lookup_insert_fresh, Hi | exact Hsid].
      * intros iid1 iid2 i1 i2 H1 H2 Heq.
        apply lookup_insert_old in H1 as [[-> ->] | H1];
          apply lookup_insert_old in H2 as [[-> ->] | H2]; eauto.
        -- destruct (Hold iid2 i2 H2). symmetry. exact Heq.
        -- destruct (Hold iid1 i1 H1). exact Heq.
    + intros sid s Hs. rewrite Hdb in Hs. simpl in Hs.
      apply lookup_insert_old in Hs as [[-> ->] | Hs].
      * exists (clock_reads w). split; [lia|]. split; [reflexivity|].
        intros e He. discriminate.
      * apply (subscription_times_later w); [lia | eauto].
    + rewrite Hdb. simpl. intros sid s Hs.
      apply lookup_insert_old in Hs as [[-> ->] | Hs]; eauto.
    + rewrite Hdb. exact Hpm.
    + intros id1 id2 pm1 pm2. rewrite Hdb. simpl. apply Hdistinct.
  - (* a cancellation *)
    split.
    + rewrite Hdb. exact Hem.
    + rewrite Hdb. simpl. intros iid i Hi.
      destruct (Hinv iid i Hi) as (Hst & s & n & Hs & Hrest).
      split; [exact Hst|]. simpl.
      destruct (decide (sid = inv_subscription_id i)) as [Heq|Hne].
      * subst sid. exists (canceled_at (clock env (clock_reads w)) s0), n.
        rewrite lookup_insert_eq. split; [reflexivity|].
        assert (s = s0) as -> by congruence. exact Hrest.
      * exists s, n. rewrite lookup_insert_ne by exact Hne. split; [exact Hs | exact Hrest].
    + rewrite Hdb. split; simpl; [|exact Hone].
      intros sid' s Hs. apply lookup_insert_Some in Hs as [[<- _] | [_ Hs]]; eauto.
    + intros sid' s Hs. rewrite Hdb in Hs. simpl in Hs.
      apply lookup_insert_Some in Hs as [[<- <-] | [_ Hs]].
      * destruct (Htimes sid s0 Hs0) as (n & Hn & Hstart & _).
        exists n. split; [lia|]. split; [exact Hstart|].
        intros e He. exists (clock_reads w). simpl in He. split; [lia | congruence].
      * apply (subscription_times_later w); [lia | eauto].
    + rewrite Hdb. simpl. intros sid' s Hs.
      apply lookup_insert_Some in Hs as [[<- <-] | [_ Hs]]; eauto.
    + rewrite Hdb. exact Hpm.
    + intros id1 id2 pm1 pm2. rewrite Hdb. simpl. apply Hdistinct.
Qed.

Lemma initial_ledger_consistent : ledger_consistent env initial_world.
Proof.
  split; try split; simpl; intros *; rewrite ?lookup_empty; try discriminate.
Qed.

Lemma reachable_ledger_consistent (w : World F) :
  App.reachable env w -> ledger_consistent env w.
Proof.
  induction 1 as [|r w Hr IH]; [apply initial_ledger_consistent|].
  apply (step_ledger_consistent w); [apply reachable_invariant, Hr | exact IH |].
  apply serve_ledger_step, reachable_invariant, Hr.
Qed.

(** ** Customers *)

(** X1: No two customers of a reachable ledger share an email address. *)
Theorem customers_have_distinct_emails (w : World F) (id1 id2 : Z) (c1 c2 : Customer) :
  App.reachable env w ->
  customers (committed w) !! id1 = Some c1 ->
  customers (committed w) !! id2 = Some c2 ->
  id1 <> id2 ->
  cust_email c1 <> cust_email c2.
Proof.
  intros Hr H1 H2 Hne Heq.
  apply Hne, (lc_emails env w (reachable_ledger_consistent w Hr) id1 id2 c1 c2 H1 H2 Heq).
Qed.

(** X2: A second customer with an email already in the ledger is refused with
    status 500 and nothing changes. *)
Theorem create_customer_duplicate_email (w : World F) (data : App.CustomerData)
    (id : Z) (c : Customer) :
  quiescent w ->
  customers (committed w) !! id = Some c ->
  cust_email c = App.cd_email data ->
  App.handle_request (App.create_customer data) w = ((None, 500), w).
Proof.
  intros Hq Hc Heq.
  assert (Ht : App.email_taken (App.cd_email data) (customers (committed w)) = true)
    by (apply email_taken_spec; eauto).
  open_world w Hq. unfold_routes. simpl. rewrite Ht. reflexivity.
Qed.

(** X3: A customer with an email not yet in the ledger is stored under a new
    id, with name '' and role 'user' when the request gives none, and the
    answer is 201 with that id. *)
Theorem create_customer_new_email (w : World F) (data : App.CustomerData) :
  quiescent w ->
  (forall id c, customers (committed w) !! id = Some c ->
     cust_email c <> App.cd_email data) ->
  let id := next_id (customers (committed w)) in
  let row := mkCustomer (App.cd_email data) (default "" (App.cd_name data))
                        (default "user" (App.cd_role data)) in
  let w' := App.serve env (App.PostCustomer data) w in
  (App.handle_request (App.create_customer data) w).1
    = (Some [("id", JInt id); ("email", JStr (App.cd_email data));
             ("role", JStr (default "user" (App.cd_role data)))], 201) /\
  customers (committed w) !! id = None /\
  customers (committed w') = <[id := row]> (customers (committed w)) /\
  payment_methods (committed w') = payment_methods (committed w) /\
  subscriptions (committed w') = subscriptions (committed w) /\
  invoices (committed w') = invoices (committed w).
Proof.
  intros Hq Hfree. cbv zeta.
  apply email_free_spec in Hfree.
  split; [|split; [apply next_id_fresh|]];
    open_world w Hq; unfold_routes; simpl; rewrite Hfree; simpl; repeat split.
Qed.

(** ** Requests that name a missing row *)

(** X4: A request whose first lookup fails is answered 404 and leaves the
    whole world as it was, with no row, no clock reading, no random draw
    and no message: a new payment method or a new subscription for a
    customer that is not in the ledger, a payment with a payment method
    that is not in the ledger, a cancellation of a subscription that is not
    in the ledger.  A payment with a stored payment method and an unknown
    customer is not such a request: the gateway is asked before the
    customer is looked up. *)
Theorem not_found_changes_nothing (r : App.Request) (w : World F) :
  quiescent w ->
  names_absent r (committed w) ->
  App.handle_request (App.route_of env r) w = ((None, 404), w).
Proof.
  intros Hq Habs.
  destruct r as [data|cid data|data|data|sid]; simpl in Habs; [destruct Habs|..];
    open_world w Hq; unfold_routes; simpl; rewrite Habs; reflexivity.
Qed.

(** ** Payments *)

(** X5: A payment request, whatever its outcome, writes nothing to the ledger
    and hands nothing to SMTP; it draws at most twice from the random
    generator and ends in 200, 400 or NotFound. *)
Theorem payment_request_writes_nothing (data : App.PaymentData F) (w : World F) :
  let run := App.process_payment_route env data w in
  committed run.2 = committed w /\
  session run.2 = session w /\
  outbox run.2 = outbox w /\
  smtp_sessions run.2 = smtp_sessions w /\
  (rng_calls w <= rng_calls run.2 <= rng_calls w + 2)%nat /\
  ((exists result, run.1 = Return (result, 200)) \/
   (run.1 = Return (failed_result, 400)) \/
   run.1 = Raise NotFound).
Proof.
  cbv zeta. destruct w as [cm ss reads sessions uuids draws out sent].
  unfold_routes. simpl.
  destruct (payment_methods ss !! _); simpl; [|repeat split; try lia; eauto].
  destruct (fltb _ _); simpl; [repeat split; try lia; eauto|].
  destruct (customers ss !! _); simpl; repeat split; try lia; eauto.
Qed.

(** ** Invoices *)

(** X7: Every invoice of a reachable ledger is pending (no route marks one
    paid or failed), belongs to a stored subscription of the same, stored,
    customer, and carries that subscription's price. *)
Theorem invoices_are_consistent (w : World F) (iid : Z) (i : Invoice F) :
  App.reachable env w ->
  invoices (committed w) !! iid = Some i ->
  inv_status i = "pending" /\
  is_Some (customers (committed w) !! inv_customer_id i) /\
  exists s, subscriptions (committed w) !! inv_subscription_id i = Some s /\
            sub_customer_id s = inv_customer_id i /\
            sub_price s = inv_amount i.
Proof.
  intros Hr Hi.
  destruct (lc_invoices env w (reachable_ledger_consistent w Hr) iid i Hi)
    as (Hst & s & n & Hs & Hcid & Hprice & _).
  split; [exact Hst|]. split.
  - rewrite <- Hcid. apply (inv_foreign_keys env w (reachable_invariant env w Hr) _ s Hs).
  - exists s. auto.
Qed.

(** X8: Every subscription of a reachable ledger has exactly one invoice. *)
Theorem one_invoice_per_subscription (w : World F) (sid : Z) (s : Subscription F) :
  App.reachable env w ->
  subscriptions (committed w) !! sid = Some s ->
  exists iid i,
    invoices (committed w) !! iid = Some i /\ inv_subscription_id i = sid /\
    forall iid' i', invoices (committed w) !! iid' = Some i' ->
                    inv_subscription_id i' = sid -> iid' = iid.
Proof.
  intros Hr Hs.
  destruct (lc_one_invoice env w (reachable_ledger_consistent w Hr)) as [Hhas Hone].
  destruct (Hhas sid s Hs) as (iid & i & Hi & Hsid).
  exists iid, i. split; [exact Hi|]. split; [exact Hsid|].
  intros iid' i' Hi' Hsid'. apply (Hone iid' iid i' i Hi' Hi). congruence.
Qed.

(** ** What later requests keep *)

Lemma same_terms_refl (s : Subscription F) : same_terms s s.
Proof. repeat split. Qed.

Lemma same_terms_trans (s1 s2 s3 : Subscription F) :
  same_terms s1 s2 -> same_terms s2 s3 -> same_terms s1 s3.
Proof.
  intros (H1 & H2 & H3 & H4 & H5) (G1 & G2 & G3 & G4 & G5).
  repeat split; congruence.
Qed.

Lemma kept_refl (w : World F) : kept w w.
Proof.
  repeat split; auto. intros id s Hs. exists s. split; [exact Hs|].
  split; [apply same_terms_refl | auto].
Qed.

Lemma kept_trans (w1 w2 w3 : World F) : kept w1 w2 -> kept w2 w3 -> kept w1 w3.
Proof.
  intros (Hc & Hp & Hi & Hs) (Hc' & Hp' & Hi' & Hs').
  repeat split; auto.
  intros id s Hl. destruct (Hs id s Hl) as (s2 & Hl2 & Ht2 & Hst2).
  destruct (Hs' id s2 Hl2) as (s3 & Hl3 & Ht3 & Hst3).
  exists s3. split; [exact Hl3|]. split; [apply (same_terms_trans s s2 s3); assumption | auto].
Qed.

Lemma step_kept (w w' : World F) : ledger_step env w w' -> kept w w'.
Proof.
  intros [Hdb _ _ | c _ Hdb _ _ | cid card _ Hdb _ _
         | cid plan price interval _ Hdb _ _ | sid s0 Hs0 Hdb _ _];
    unfold kept; rewrite Hdb; simpl.
  - apply kept_refl.
  - split; [intros id c0 Hl; apply lookup_insert_fresh, Hl|].
    split; [auto|]. split; [auto|].
    intros id s Hs. exists s. split; [exact Hs|]. split; [apply same_terms_refl | auto].
  - split; [auto|]. split; [intros id pm Hl; apply lookup_insert_fresh, Hl|].
    split; [auto|].
    intros id s Hs. exists s. split; [exact Hs|]. split; [apply same_terms_refl | auto].
  - split; [auto|]. split; [auto|].
    split; [intros id i Hl; apply lookup_insert_fresh, Hl|].
    intros id s Hs. exists s. split; [apply lookup_insert_fresh, Hs|].
    split; [apply same_terms_refl | auto].
  - split; [auto|]. split; [auto|]. split; [auto|].
    intros id s Hs. destruct (decide (sid = id)) as [Heq|Hne].
    + subst id. assert (s = s0) as -> by congruence.
      exists (canceled_at (clock env (clock_reads w)) s0).
      rewrite lookup_insert_eq. repeat split.
    + exists s. rewrite lookup_insert_ne by exact Hne.
      split; [exact Hs|]. split; [apply same_terms_refl | auto].
Qed.

Lemma serve_all_reachable (requests : list App.Request) (w : World F) :
  App.reachable env w -> App.reachable env (serve_all env requests w).
Proof.
  revert w. induction requests as [|r rs IH]; intros w Hr; simpl; [exact Hr|].
  apply IH. constructor. exact Hr.
Qed.

Lemma serve_all_kept (requests : list App.Request) (w : World F) :
  App.reachable env w -> kept w (serve_all env requests w).
Proof.
  revert w. induction requests as [|r rs IH]; intros w Hr; simpl; [apply kept_refl|].
  apply (kept_trans w (App.serve env r w)).
  - apply step_kept, serve_ledger_step, reachable_invariant, Hr.
  - apply IH. constructor. exact Hr.
Qed.

(** X9: Whatever requests follow, the customers, payment methods and invoices
    of a reachable ledger stay as they are, under the same ids, and a
    subscription keeps its customer, plan, price, interval and start date. *)
Theorem history_keeps_rows (w : World F) (requests : list App.Request) :
  App.reachable env w ->
  let w' := serve_all env requests w in
  (forall id c, customers (committed w) !! id = Some c ->
                customers (committed w') !! id = Some c) /\
  (forall id pm, payment_methods (committed w) !! id = Some pm ->
                 payment_methods (committed w') !! id = Some pm) /\
  (forall id i, invoices (committed w) !! id = Some i ->
                invoices (committed w') !! id = Some i) /\
  (forall id s, subscriptions (committed w) !! id = Some s ->
     exists s', subscriptions (committed w') !! id = Some s' /\ same_terms s s').
Proof.
  intros Hr. cbv zeta.
  destruct (serve_all_kept requests w Hr) as (Hc & Hp & Hi & Hs).
  repeat split; auto.
  intros id s Hl. destruct (Hs id s Hl) as (s' & Hl' & Ht & _). eauto.
Qed.

(** X10: A stored subscription is 'active' or 'canceled', and a canceled one
    stays canceled whatever requests follow: nothing reactivates it. *)
Theorem canceled_is_terminal (w : World F) (sid : Z) (s : Subscription F)
    (requests : list App.Request) :
  App.reachable env w ->
  subscriptions (committed w) !! sid = Some s ->
  (sub_status s = "active" \/ sub_status s = "canceled") /\
  (sub_status s = "canceled" ->
   exists s', subscriptions (committed (serve_all env requests w)) !! sid = Some s' /\
              sub_status s' = "canceled" /\ is_Some (sub_end_date s')).
Proof.
  intros Hr Hs. split.
  - apply (lc_status env w (reachable_ledger_consistent w Hr) sid s Hs).
  - intros Hst.
    destruct (serve_all_kept requests w Hr) as (_ & _ & _ & Hkeep).
    destruct (Hkeep sid s Hs) as (s' & Hs' & _ & Hst').
    exists s'. split; [exact Hs'|]. split; [auto|].
    apply (inv_end_date env _ (reachable_invariant env _ (serve_all_reachable requests w Hr))
             sid s' Hs').
    auto.
Qed.

(** ** Payment methods *)

(** X11: A stored payment method belongs to a stored customer and holds at most
    four characters of a card number. *)
Theorem payment_methods_well_formed (w : World F) (id : Z) (pm : PaymentMethod) :
  App.reachable env w ->
  payment_methods (committed w) !! id = Some pm ->
  is_Some (customers (committed w) !! pm_customer_id pm) /\
  (String.length (pm_card_number pm) <= 4)%nat.
Proof.
  intros Hr Hpm.
  apply (lc_payment_methods env w (reachable_ledger_consistent w Hr) id pm Hpm).
Qed.

(** X12: As long as [uuid4] never returns the same value twice, no two stored
    payment methods carry the same token. *)
Theorem tokens_pairwise_distinct (w : World F) (id1 id2 : Z) (pm1 pm2 : PaymentMethod) :
  (forall i j, uuid4 env i = uuid4 env j -> i = j) ->
  App.reachable env w ->
  payment_methods (committed w) !! id1 = Some pm1 ->
  payment_methods (committed w) !! id2 = Some pm2 ->
  id1 <> id2 ->
  pm_token pm1 <> pm_token pm2.
Proof.
  intros Hinj Hr H1 H2 Hne Heq.
  destruct (lc_tokens env w (reachable_ledger_consistent w Hr) id1 id2 pm1 pm2 H1 H2 Hne)
    as (n1 & n2 & Hn & Ht1 & Ht2).
  apply Hn, Hinj. congruence.
Qed.

(** ** The refund window *)

Lemma days_lt (delta n : Z) : days delta < n <-> delta < timedelta_days n.
Proof.
  unfold days, timedelta_days, usec_per_day.
  pose proof (Z.div_mod delta 86400000000 ltac:(lia)) as Hdm.
  pose proof (Z.mod_pos_bound delta 86400000000 ltac:(lia)) as Hmod.
  lia.
Qed.

(** X13: The refund message goes out exactly when strictly less than 30 times
    24 hours lie between the start date and the second clock reading of the
    cancellation; at 30 days to the microsecond nothing is sent.  When that
    reading is not before the start date at most 30 days are refunded; a
    reading before the start date gives more than 30. *)
Theorem refund_window (w : World F) (sid : Z) (s : Subscription F) :
  App.reachable env w ->
  subscriptions (committed w) !! sid = Some s ->
  let now := clock env (S (clock_reads w)) in
  let w' := (App.cancel_subscription env sid w).2 in
  (now - sub_start_date s < timedelta_days 30 ->
     0 < days_remaining now s /\
     exists c, customers (committed w) !! sub_customer_id s = Some c /\
       outbox w' = outbox w ++
         [(refund_email c (days_remaining now s) s, smtp env (smtp_sessions w))]) /\
  (timedelta_days 30 <= now - sub_start_date s -> outbox w' = outbox w) /\
  (sub_start_date s <= now -> days_remaining now s <= 30) /\
  (now < sub_start_date s -> 30 < days_remaining now s).
Proof.
  intros Hr Hs. cbv zeta.
  destruct (reachable_invariant env w Hr) as [Hq Hfk _ _].
  destruct (Hfk sid s Hs) as [c Hc].
  destruct (cancel_subscription_run env w sid s c Hq Hs Hc) as (_ & _ & _ & _ & _ & Hout).
  rewrite Hout. unfold days_remaining.
  pose proof (days_lt (clock env (S (clock_reads w)) - sub_start_date s) 30) as H30.
  pose proof (days_lt (clock env (S (clock_reads w)) - sub_start_date s) 0) as H0.
  change (timedelta_days 0) with 0 in H0.
  repeat split.
  - lia.
  - exists c. split; [exact Hc|].
    replace (0 <? _) with true by (symmetry; apply Z.ltb_lt; lia). reflexivity.
  - intros Hge. replace (0 <? _) with false by (symmetry; apply Z.ltb_ge; lia).
    apply app_nil_r.
  - lia.
  - lia.
Qed.

(** ** Dates *)

(** X14: When the clock never runs backwards, a subscription does not end
    before it starts and its invoice is due at least 7 days after its
    start. *)
Theorem ledger_times_ordered (w : World F) :
  monotone_clock env ->
  App.reachable env w ->
  (forall sid s e, subscriptions (committed w) !! sid = Some s ->
     sub_end_date s = Some e -> sub_start_date s <= e) /\
  (forall iid i s, invoices (committed w) !! iid = Some i ->
     subscriptions (committed w) !! inv_subscription_id i = Some s ->
     sub_start_date s + timedelta_days 7 <= inv_due_date i).
Proof.
  intros Hmono Hr.
  pose proof (reachable_ledger_consistent w Hr) as Hlc. split.
  - intros sid s e Hs He.
    destruct (lc_times env w Hlc sid s Hs) as (n & _ & -> & Hend).
    destruct (Hend e He) as (m & Hm & ->). apply Hmono. lia.
  - intros iid i s Hi Hs.
    destruct (lc_invoices env w Hlc iid i Hi) as (_ & s' & n & Hs' & _ & _ & Hstart & ->).
    assert (s' = s) as -> by congruence. rewrite Hstart.
    pose proof (Hmono n (S n)). lia.
Qed.

(** ** Messages *)

(** X15: A request hands at most one message to SMTP, and only a subscription
    or a cancellation hands one; what was sent before stays in place. *)
Theorem one_message_per_request (r : App.Request) (w : World F) :
  App.reachable env w ->
  exists more,
    outbox (App.serve env r w) = outbox w ++ more /\
    match r with
    | App.PostSubscription _ | App.PostCancel _ => (length more <= 1)%nat
    | _ => more = []
    end.
Proof.
  intros Hr. destruct (reachable_invariant env w Hr) as [Hq Hfk _ _].
  open_world w Hq. destruct r as [data|cid data|data|data|sid]; unfold_routes; simpl.
  - exists []. rewrite app_nil_r. destruct (App.email_taken _ _); simpl; split; reflexivity.
  - exists []. rewrite app_nil_r. destruct (customers cm !! cid); simpl; split; reflexivity.
  - exists []. rewrite app_nil_r.
    destruct (payment_methods cm !! _); simpl; [|split; reflexivity].
    destruct (fltb _ _); simpl; [split; reflexivity|].
    destruct (customers cm !! _); simpl; split; reflexivity.
  - destruct (customers cm !! _); simpl.
    + destruct (smtp env sessions); simpl; eexists [_];
        (split; [reflexivity | simpl; lia]).
    + exists []. rewrite app_nil_r. split; [reflexivity | simpl; lia].
  - destruct (subscriptions cm !! sid) as [s|] eqn:Hs; simpl.
    + destruct (Hfk sid s Hs) as [c Hc]. destruct (0 <? _); simpl.
      * rewrite Hc. simpl.
        destruct (smtp env sessions); simpl; eexists [_];
          (split; [reflexivity | simpl; lia]).
      * exists []. rewrite app_nil_r. split; [reflexivity | simpl; lia].
    + exists []. rewrite app_nil_r. split; [reflexivity | simpl; lia].
Qed.

(** ** Transaction ids *)

Lemma four_digits (n : Z) : 1000 <= n <= 9999 -> String.length (pretty n) = 4%nat.
Proof.
  intros Hn.
  assert (Hall : forallb (fun k => Nat.eqb (String.length (pretty (1000 + Z.of_nat k))) 4)
                         (seq 0 (Z.to_nat 9000)) = true) by (vm_compute; reflexivity).
  rewrite forallb_forall in Hall.
  specialize (Hall (Z.to_nat (n - 1000))).
  replace (1000 + Z.of_nat (Z.to_nat (n - 1000))) with n in Hall by lia.
  apply Nat.eqb_eq, Hall, in_seq. lia.
Qed.

(** X16: A successful gateway result carries a transaction id of exactly four
    characters. *)
Theorem transaction_id_four_characters (token : string) (amount : F) (w : World F) :
  fltb (unit_draw env (rng_calls w)) lit_0_7 = true ->
  exists transaction_id,
    (PaymentService.mock_payment_gateway env token amount w).1
      = Return (success_result transaction_id) /\
    String.length transaction_id = 4%nat.
Proof.
  intros Hdraw. rewrite mock_payment_gateway_run, Hdraw. eexists. split; [reflexivity|].
  apply four_digits.
  pose proof (Z.mod_pos_bound (int_draw env (S (rng_calls w))) 9000). lia.
Qed.
(** ** Whom the dunning notice names *)

(** X6: A declined payment is announced to the customer the request names,
    found by [customer_id] alone: the owner of the payment method plays no
    part, so a request that pairs one customer's id with another's card
    sends the notice to the former. *)
Theorem dunning_notice_names_request_customer (w : World F) (data : App.PaymentData F)
    (pm : PaymentMethod) (c : Customer) :
  payment_methods (session w) !! App.pd_payment_method_id data = Some pm ->
  customers (session w) !! App.pd_customer_id data = Some c ->
  fltb (unit_draw env (rng_calls w)) lit_0_7 = false ->
  let retry_date := clock env (clock_reads w) + timedelta_days 2 in
  let run := App.process_payment_route env data w in
  run.1 = Return (failed_result, 400) /\
  stdout run.2 = stdout w ++
    [scheduled_line c retry_date;
     mock_line (cust_email c) "Payment Failed"
       (DunningService.retry_body (App.pd_amount data) retry_date)].
Proof.
  intros Hpm Hc Hdraw. cbv zeta.
  destruct w as [cm ss reads sessions uuids draws out sent]. simpl in *.
  unfold_routes. simpl. rewrite Hpm. simpl. rewrite Hdraw. simpl. rewrite Hc. simpl.
  split; [reflexivity|]. rewrite <- app_assoc. reflexivity.
Qed.
End Ledger.

(** * The routes that read *)

Section Reading.
Context {F : Type} `{Number F} (env : Env F) (http_date : Z -> string).

Lemma serve_quiescent (r : App.Request) (w : World F) : quiescent (App.serve env r w).
Proof.
  destruct (committed_serve env r w) as (Hcm & Hss & _). unfold quiescent. congruence.
Qed.

Lemma serve_new_customer (w : World F) (data : App.CustomerData) :
  quiescent w ->
  (forall id c, customers (committed w) !! id = Some c ->
     cust_email c <> App.cd_email data) ->
  customers (committed (App.serve env (App.PostCustomer data) w))
    = <[next_id (customers (committed w)) :=
          mkCustomer (App.cd_email data) (default "" (App.cd_name data))
                     (default "user" (App.cd_role data))]> (customers (committed w)).
Proof.
  intros Hq Hfree. apply email_free_spec in Hfree.
  open_world w Hq. unfold_routes. simpl. rewrite Hfree. reflexivity.
Qed.

(** X17: A customer just created is read back by [get_customer] under the id
    the creation answered, an id that named nothing before, with the email
    given and the name and role stored; the read changes nothing. *)
Theorem get_customer_after_create (w : World F) (data : App.CustomerData) :
  quiescent w ->
  (forall id c, customers (committed w) !! id = Some c ->
     cust_email c <> App.cd_email data) ->
  let id := next_id (customers (committed w)) in
  let w1 := App.serve env (App.PostCustomer data) w in
  App.get_customer id w = (Raise NotFound, w) /\
  App.get_customer id w1
    = (Return ([("id", JInt id); ("email", JStr (App.cd_email data));
                ("name", JStr (default "" (App.cd_name data)));
                ("role", JStr (default "user" (App.cd_role data)))], 200), w1).
Proof.
  intros Hq Hfree. cbv zeta.
  pose proof (next_id_fresh (customers (committed w))) as Hnew.
  pose proof (serve_new_customer w data Hq Hfree) as Hrows.
  pose proof (serve_quiescent (App.PostCustomer data) w) as Hq1.
  unfold App.get_customer, bind, get_or_404, ret. split.
  - rewrite Hq, Hnew. reflexivity.
  - rewrite Hq1, Hrows, lookup_insert_eq. reflexivity.
Qed.

(** X18: The invoice of a subscription just created is read back by
    [get_invoice] under the [invoice_id] the creation answered: the
    customer, the subscription price as amount, status 'pending' and the
    due date; the read changes nothing. *)
Theorem get_invoice_after_subscription (w : World F) (data : App.SubscriptionData F)
    (c : Customer) :
  App.reachable env w ->
  customers (committed w) !! App.sd_customer_id data = Some c ->
  let iid := next_id (invoices (committed w)) in
  let w1 := App.serve env (App.PostSubscription data) w in
  (exists sid plan status,
     (App.handle_request (App.create_subscription env data) w).1
       = (Some [("id", sid); ("plan_name", plan); ("status", status);
                ("invoice_id", JInt iid)], 201)) /\
  App.get_invoice http_date iid w1
    = (Return ([("id", JInt iid); ("customer_id", JInt (App.sd_customer_id data));
                ("amount", JNum (App.sd_price data)); ("status", JStr "pending");
                ("due_date",
                 JStr (http_date (clock env (S (clock_reads w)) + timedelta_days 7)))],
               200), w1).
Proof.
  intros Hr Hc. cbv zeta.
  destruct (reachable_invariant env w Hr) as [Hq _ _ _].
  destruct (create_subscription_run env w data c Hq Hc) as (Hret & Hdb & _).
  destruct (committed_serve env (App.PostSubscription data) w) as (Hcm & _).
  simpl in Hcm. rewrite Hdb in Hcm.
  pose proof (serve_quiescent (App.PostSubscription data) w) as Hq1.
  split.
  - unfold App.handle_request.
    destruct (App.create_subscription env data w) as [out w']. simpl in Hret. subst out.
    simpl. eauto.
  - unfold App.get_invoice, bind, get_or_404, ret.
    rewrite Hq1, Hcm. simpl. rewrite lookup_insert_eq. reflexivity.
Qed.

(** X19: [get_invoice] on a reachable ledger answers 404 for an id that names
    no invoice and otherwise reports status 'pending'. *)
Theorem get_invoice_reports_pending (w : World F) (iid : Z) :
  App.reachable env w ->
  match invoices (committed w) !! iid with
  | None => App.get_invoice http_date iid w = (Raise NotFound, w)
  | Some i =>
      exists body, App.get_invoice http_date iid w = (Return (body, 200), w) /\
        dict_get "status" body = Some (JStr "pending") /\
        dict_get "amount" body = Some (JNum (inv_amount i)) /\
        dict_get "customer_id" body = Some (JInt (inv_customer_id i))
  end.
Proof.
  intros Hr. destruct (reachable_invariant env w Hr) as [Hq _ _ _].
  destruct (invoices (committed w) !! iid) as [i|] eqn:Hi.
  - destruct (lc_invoices env w (reachable_ledger_consistent env w Hr) iid i Hi)
      as (Hst & _).
    unfold App.get_invoice, bind, get_or_404, ret. rewrite Hq, Hi.
    eexists. split; [reflexivity|]. simpl. rewrite Hst. repeat split.
  - unfold App.get_invoice, bind, get_or_404, ret. rewrite Hq, Hi. reflexivity.
Qed.

(** X20: The dashboard is refused unless the query parameter [role] is exactly
    'admin'; the roles stored in the ledger play no part.  With it, the
    page is rendered with every stored customer and every stored invoice,
    and nothing else. *)
Theorem dashboard_access (role : option string) (w : World F) :
  (role <> Some "admin" -> App.dashboard role w = (Return App.AccessDenied, w)) /\
  (role = Some "admin" ->
   exists listed billed,
     App.dashboard role w = (Return (App.Dashboard listed billed), w) /\
     (forall id c, (id, c) ∈ listed <-> customers (session w) !! id = Some c) /\
     (forall id i, (id, i) ∈ billed <-> invoices (session w) !! id = Some i)).
Proof.
  split.
  - intros Hne. unfold App.dashboard. destruct role as [r|]; [|reflexivity].
    destruct (String.eqb r "admin") eqn:Heq; [|reflexivity].
    apply String.eqb_eq in Heq. congruence.
  - intros ->. eexists _, _. split; [reflexivity|].
    split; intros; apply elem_of_map_to_list.
Qed.
End Reading.

(** * The scripted history and the ledger *)

Lemma w_alice_quiescent : quiescent w_alice.
Proof. reflexivity. Defined.

Lemma w_canceled_reachable : App.reachable env0 w_canceled.
Proof. repeat constructor. Defined.

Lemma bob_is_new (id : Z) (c : Customer) :
  customers (committed w_alice) !! id = Some c -> cust_email c <> App.cd_email bob.
Proof. revert id c. apply email_free_spec. evaluate. Defined.

Lemma customers_have_distinct_emails_witness : "a@b.com" <> "bob@b.com".
Proof.
  assert (Hr : App.reachable env0 w_bob) by (repeat constructor).
  assert (H1 : customers (committed w_bob) !! 1 = Some alice_row) by evaluate.
  assert (H2 : customers (committed w_bob) !! 2 = Some bob_row) by evaluate.
  apply (customers_have_distinct_emails env0 w_bob 1 2 alice_row bob_row Hr H1 H2). lia.
Defined.

Lemma create_customer_duplicate_email_witness :
  App.handle_request (App.create_customer alice) w_alice = ((None, 500), w_alice).
Proof.
  assert (H1 : customers (committed w_alice) !! 1 = Some alice_row) by evaluate.
  apply (create_customer_duplicate_email w_alice alice 1 alice_row w_alice_quiescent H1).
  reflexivity.
Defined.

Lemma create_customer_new_email_witness :
  customers (committed (App.serve env0 (App.PostCustomer bob) w_alice))
    = {[ 1 := alice_row; 2 := bob_row ]}.
Proof.
  destruct (create_customer_new_email env0 w_alice bob w_alice_quiescent bob_is_new)
    as (_ & _ & Hrows & _).
  rewrite Hrows. evaluate.
Defined.

Lemma not_found_changes_nothing_witness :
  App.handle_request (App.cancel_subscription env0 9) w_sub = ((None, 404), w_sub).
Proof.
  assert (Hq : quiescent w_sub) by reflexivity.
  assert (Habs : names_absent (App.PostCancel 9) (committed w_sub)) by evaluate.
  apply (not_found_changes_nothing env0 (App.PostCancel 9) w_sub Hq Habs).
Defined.

Lemma invoices_are_consistent_witness :
  exists s, subscriptions (committed w_sub) !! 1 = Some s /\
            sub_customer_id s = 1 /\ sub_price s = (2999 # 100)%Q.
Proof.
  assert (Hi : invoices (committed w_sub) !! 1
               = Some (mkInvoice 1 1 (2999 # 100)%Q "pending" 604800001005)) by evaluate.
  destruct (invoices_are_consistent env0 w_sub 1 _ w_sub_reachable Hi) as (_ & _ & Hs).
  exact Hs.
Defined.

Lemma one_invoice_per_subscription_witness :
  exists iid i, invoices (committed w_sub) !! iid = Some i /\ inv_subscription_id i = 1.
Proof.
  assert (Hs : subscriptions (committed w_sub) !! 1 = Some pro_row) by evaluate.
  destruct (one_invoice_per_subscription env0 w_sub 1 pro_row w_sub_reachable Hs)
    as (iid & i & Hi & Hsid & _).
  exists iid, i. split; assumption.
Defined.

Lemma history_keeps_rows_witness :
  let w' := serve_all env0 [App.PostCancel 1; App.PostCustomer bob] w_sub in
  customers (committed w') !! 1 = Some alice_row /\
  exists s', subscriptions (committed w') !! 1 = Some s' /\ same_terms pro_row s'.
Proof.
  assert (Hc : customers (committed w_sub) !! 1 = Some alice_row) by evaluate.
  assert (Hs : subscriptions (committed w_sub) !! 1 = Some pro_row) by evaluate.
  destruct (history_keeps_rows env0 w_sub [App.PostCancel 1; App.PostCustomer bob]
              w_sub_reachable) as (Hcust & _ & _ & Hsub).
  split; [apply Hcust, Hc | apply Hsub, Hs].
Defined.

Lemma canceled_is_terminal_witness :
  exists s',
    subscriptions (committed (serve_all env0 [App.PostCancel 1; App.PostSubscription pro_plan]
                                        w_canceled)) !! 1 = Some s' /\
    sub_status s' = "canceled" /\ is_Some (sub_end_date s').
Proof.
  assert (Hs : subscriptions (committed w_canceled) !! 1
               = Some (canceled_at 864000001000 pro_row)) by evaluate.
  destruct (canceled_is_terminal env0 w_canceled 1 _
              [App.PostCancel 1; App.PostSubscription pro_plan] w_canceled_reachable Hs)
    as (_ & Hstay).
  apply Hstay. reflexivity.
Defined.

Lemma payment_methods_well_formed_witness :
  is_Some (customers (committed w_card) !! 1) /\ (String.length "1111" <= 4)%nat.
Proof.
  assert (Hpm : payment_methods (committed w_card) !! 1 = Some visa_row) by evaluate.
  apply (payment_methods_well_formed env0 w_card 1 visa_row w_card_reachable Hpm).
Defined.

Lemma tokens_pairwise_distinct_witness : "uuid-0" <> "uuid-1".
Proof.
  assert (Hr : App.reachable env0 w_two_cards) by (repeat constructor).
  assert (H1 : payment_methods (committed w_two_cards) !! 1 = Some visa_row) by evaluate.
  assert (H2 : payment_methods (committed w_two_cards) !! 2
               = Some (mkPaymentMethod 1 "0004" "uuid-1")) by evaluate.
  apply (tokens_pairwise_distinct env0 w_two_cards 1 2 _ _ env0_uuid4_inj Hr H1 H2). lia.
Defined.

(** Ten days after the start the window is open and 20 days are refunded. *)
Lemma refund_window_witness :
  0 < days_remaining 864000001003 pro_row /\
  exists c, customers (committed w_sub) !! 1 = Some c /\
    outbox (App.cancel_subscription env0 1 w_sub).2
      = outbox w_sub ++ [(refund_email c 20 pro_row, SmtpError "Connection refused")].
Proof.
  assert (Hs : subscriptions (committed w_sub) !! 1 = Some pro_row) by evaluate.
  destruct (refund_window env0 w_sub 1 pro_row w_sub_reachable Hs) as (Hopen & _).
  apply Hopen. vm_compute. reflexivity.
Defined.

Lemma steady_clock_monotone : monotone_clock steady_env.
Proof. intros n m Hnm. simpl. lia. Defined.

Lemma ledger_times_ordered_witness :
  sub_start_date (canceled_at 7200001000 pro_row) <= 7200001000.
Proof.
  assert (Hr : App.reachable steady_env w_steady) by (repeat constructor).
  assert (Hs : subscriptions (committed w_steady) !! 1
               = Some (canceled_at 7200001000 pro_row)) by evaluate.
  destruct (ledger_times_ordered steady_env w_steady steady_clock_monotone Hr)
    as (Hend & _).
  apply (Hend 1 _ _ Hs). reflexivity.
Defined.

Lemma one_message_per_request_witness :
  exists more,
    outbox (App.serve env0 (App.PostSubscription pro_plan) w_card)
      = outbox w_card ++ more /\ (length more <= 1)%nat.
Proof.
  apply (one_message_per_request env0 (App.PostSubscription pro_plan) w_card
           w_card_reachable).
Defined.

Lemma transaction_id_four_characters_witness :
  exists transaction_id,
    (PaymentService.mock_payment_gateway env0 "uuid-0" (10 # 1)%Q w_declined).1
      = Return (success_result transaction_id) /\
    String.length transaction_id = 4%nat.
Proof.
  apply (transaction_id_four_characters env0 "uuid-0" (10 # 1)%Q w_declined).
  evaluate.
Defined.

Lemma get_customer_after_create_witness :
  App.get_customer 2 (App.serve env0 (App.PostCustomer bob) w_alice)
    = (Return ([("id", JInt 2); ("email", JStr "bob@b.com"); ("name", JStr "");
                ("role", JStr "user")], 200),
       App.serve env0 (App.PostCustomer bob) w_alice).
Proof.
  destruct (get_customer_after_create env0 w_alice bob w_alice_quiescent bob_is_new)
    as (_ & Hread).
  exact Hread.
Defined.

Lemma get_invoice_after_subscription_witness :
  App.get_invoice http_date 1 w_sub
    = (Return ([("id", JInt 1); ("customer_id", JInt 1); ("amount", JNum (2999 # 100)%Q);
                ("status", JStr "pending"); ("due_date", JStr "date 604800001005")],
               200), w_sub).
Proof.
  assert (Hc : customers (committed w_card) !! App.sd_customer_id pro_plan = Some alice_row)
    by evaluate.
  destruct (get_invoice_after_subscription env0 http_date w_card pro_plan alice_row
              w_card_reachable Hc) as (_ & Hread).
  exact Hread.
Defined.

Lemma get_invoice_reports_pending_witness :
  exists body,
    App.get_invoice http_date 1 w_sub = (Return (body, 200), w_sub) /\
    dict_get "status" body = Some (JStr "pending") /\
    dict_get "amount" body = Some (JNum (2999 # 100)%Q) /\
    dict_get "customer_id" body = Some (JInt 1).
Proof.
  exact (get_invoice_reports_pending env0 http_date w_sub 1 w_sub_reachable).
Defined.

(** Bob's id with Alice's card: the notice is addressed to Bob. *)
Lemma dunning_notice_names_request_customer_witness :
  stdout (App.process_payment_route env0 (App.mkPaymentData 2 (10 # 1)%Q 1) w_bob).2
    = stdout w_bob ++
      ["Scheduled retry for bob@b.com on t1209600001000";
       "Mock sending email to bob@b.com: Payment Failed - Payment of $10.00 failed. We'll retry on t1209600001000. Please update your payment method."]
  /\ pm_customer_id visa_row = 1.
Proof.
  assert (Hpm : payment_methods (session w_bob) !! 1 = Some visa_row) by evaluate.
  assert (Hc : customers (session w_bob) !! 2 = Some bob_row) by evaluate.
  assert (Hdraw : fltb (unit_draw env0 (rng_calls w_bob)) lit_0_7 = false) by evaluate.
  destruct (dunning_notice_names_request_customer env0 w_bob
              (App.mkPaymentData 2 (10 # 1)%Q 1) visa_row bob_row Hpm Hc Hdraw)
    as (_ & Hout).
  split; [|reflexivity]. rewrite Hout. evaluate.
Defined.
